(** * RTSI: Rating Trend Strength Index

    A shallow embedding of [src/algorithms/rtsi_calculator-20250608.py]
    and the properties its specification states about it.

    Modelling conventions.
    - Python floats are idealised as exact rationals ([Q]); float
      literals such as [0.05] denote the decimal they spell.  Infinities
      are outside the model, and so is NaN except as the mark of a missing
      cell and in the copy of the scorer that takes regression outputs
      which may be NaN.
    - [scipy.stats.linregress] is an external routine: it is a section
      variable returning either a raised exception (its message) or the
      five regression outputs.
    - [datetime.now()] is an effect: a clock oracle gives the value of the
      n-th read, in microseconds, and the number of reads is threaded
      through every function that looks at the clock.
    - Result records are Python dictionaries: insertion-ordered
      association lists from keys to dynamically typed values.
    - Console output ([print]) carries no data and is left out, except
      where evaluating a printed expression can raise. *)

From Stdlib Require Import List String Ascii ZArith QArith Qround Qminmax Qabs.
From Stdlib Require Import Bool Lia Lqa Permutation Sorted DecimalString.
Import ListNotations.

Local Open Scope string_scope.
Local Open Scope Z_scope.

(** ** Python values and dictionaries *)

Inductive pyval : Type :=
| PNone
| PInt (z : Z)
| PFloat (q : Q)
| PNaN                (* the float NaN: pandas' mark of a missing cell *)
| PStr (s : string).

(** An insertion-ordered dictionary with string keys. *)
Definition dict (V : Type) : Type := list (string * V).

Fixpoint dict_get {V} (d : dict V) (k : string) : option V :=
  match d with
  | [] => None
  | (k', v) :: d' => if String.eqb k' k then Some v else dict_get d' k
  end.

(** [d.get(k, default)] *)
Definition dict_get_default {V} (d : dict V) (k : string) (default : V) : V :=
  match dict_get d k with Some v => v | None => default end.

(** [d[k] = v]: an existing key keeps its position, a new key goes last. *)
Fixpoint dict_set {V} (d : dict V) (k : string) (v : V) : dict V :=
  match d with
  | [] => [(k, v)]
  | (k', v') :: d' =>
      if String.eqb k' k then (k', v) :: d' else (k', v') :: dict_set d' k v
  end.

(** [d.update(e)] *)
Definition dict_update {V} (d e : dict V) : dict V :=
  fold_left (fun acc kv => dict_set acc (fst kv) (snd kv)) e d.

Definition dict_keys {V} (d : dict V) : list string := map fst d.

(** The dictionary without key [k] (used to compare records up to one field). *)
Definition dict_without {V} (d : dict V) (k : string) : dict V :=
  filter (fun kv => negb (String.eqb (fst kv) k)) d.

(** ** Numbers *)

Definition Q_of_Z (z : Z) : Q := inject_Z z.

(** Round half to even, on an exact rational. *)
Definition round_half_even (x : Q) : Z :=
  let f := Qfloor x in
  let r := (x - inject_Z f)%Q in
  match (r ?= 1 # 2)%Q with
  | Lt => f
  | Gt => f + 1
  | Eq => if Z.even f then f else f + 1
  end.

(** [round(x, ndigits)] for a float [x] and [ndigits >= 0]. *)
Definition py_round (x : Q) (ndigits : nat) : Q :=
  let scale := Z.pow 10 (Z.of_nat ndigits) in
  Qmake (round_half_even (x * inject_Z scale)) (Z.to_pos scale).

(** [max(a, b)] and [min(a, b)] return the first argument unless the second
    is strictly larger (resp. smaller). *)
Definition py_max (a b : Q) : Q := if Qlt_le_dec a b then b else a.
Definition py_min (a b : Q) : Q := if Qlt_le_dec b a then b else a.

Definition Qltb (a b : Q) : bool := if Qlt_le_dec a b then true else false.
Definition Qgeb (a b : Q) : bool := negb (Qltb a b).
Definition Qgtb (a b : Q) : bool := Qltb b a.

(** [str(z)] for an integer. *)
Definition str_of_Z (z : Z) : string := NilZero.string_of_int (Z.to_int z).

(** ** Elapsed time, as the code prints it

    [timedelta.total_seconds()] is the float nearest to
    [microseconds / 10**6], and the format [.3f] rounds the exact value of
    that float to three decimals (ties to even).  Both roundings are exact
    integer computations. *)

(** The rational [a / (b * 2^e)], for [a >= 0], [b > 0] and any [e]. *)
Definition scale_frac (a b e : Z) : Q :=
  Qmake (a * 2 ^ Z.max 0 (- e)) (Z.to_pos (b * 2 ^ Z.max 0 e)).

(** The binary64 float nearest to [a / b] (for [a, b > 0], normal range):
    a 53-bit significand times a power of two. *)
Definition nearest_double (a b : Z) : Q :=
  let g := Z.log2 a - Z.log2 b in
  let fl := if (b * 2 ^ Z.max 0 g <=? a * 2 ^ Z.max 0 (- g)) then g else g - 1 in
  let e := fl - 52 in
  scale_frac (round_half_even (scale_frac a b e)) 1 (- e).

Definition pad3 (n : Z) : string :=
  if n <? 10 then "00" ++ str_of_Z n
  else if n <? 100 then "0" ++ str_of_Z n
  else str_of_Z n.

(** [f"{td.total_seconds():.3f}s"] for a timedelta of [micros] microseconds. *)
Definition format_elapsed (micros : Z) : string :=
  let a := Z.abs micros in
  let d := if a =? 0 then 0%Q else nearest_double a 1000000 in
  let ms := round_half_even (d * inject_Z 1000) in
  (if micros <? 0 then "-" else "")
    ++ str_of_Z (ms / 1000) ++ "." ++ pad3 (ms mod 1000) ++ "s".

(** ** Ratings, tables and the external routines *)

(** A cell of a pandas Series or DataFrame. *)
Inductive cell : Type :=
| CStr (s : string)
| CInt (z : Z)
| CNaN.

(** [str(c)] *)
Definition cell_str (c : cell) : string :=
  match c with
  | CStr s => s
  | CInt z => str_of_Z z
  | CNaN => "nan"
  end.

(** The Python value a cell holds. *)
Definition cell_value (c : cell) : pyval :=
  match c with
  | CStr s => PStr s
  | CInt z => PInt z
  | CNaN => PNaN
  end.

(** A rating map sends a symbol to a score, or to [None]. *)
Definition rating_map : Type := dict (option Z).

(** The built-in map used when [config] cannot be imported. *)
Definition DEFAULT_RATING_SCORE_MAP : rating_map :=
  [("大多", Some 7); ("中多", Some 6); ("小多", Some 5); ("微多", Some 4);
   ("微空", Some 3); ("小空", Some 2); ("中空", Some 1); ("大空", Some 0);
   ("-", None)].

(** [series.map(m).dropna()]: a cell that is no key of [m], or whose entry
    is [None], becomes NaN and is dropped; order is kept. *)
Fixpoint encode (m : rating_map) (ratings : list cell) : list Z :=
  match ratings with
  | [] => []
  | c :: rest =>
      match c with
      | CStr s =>
          match dict_get m s with
          | Some (Some score) => score :: encode m rest
          | _ => encode m rest
          end
      | _ => encode m rest
      end
  end.

(** What a call that may raise produces. *)
Inductive outcome (A : Type) : Type :=
| Returned (a : A)
| Raised (message : string).
Arguments Returned {A} a.
Arguments Raised {A} message.

(** The five outputs of [scipy.stats.linregress]. *)
Record LinregressResult : Type := {
  slope : Q;
  intercept : Q;
  r_value : Q;
  p_value : Q;
  std_err : Q
}.

(** [np.arange(n)] *)
Definition arange (n : nat) : list Z := map Z.of_nat (seq 0 n).

(** ** Private helpers and classifiers *)

Definition _get_insufficient_data_result (data_points : Z) : dict pyval :=
  [("rtsi", PInt 0);
   ("trend", PStr "insufficient_data");
   ("confidence", PInt 0);
   ("slope", PInt 0);
   ("r_squared", PInt 0);
   ("recent_score", PNone);
   ("score_change_5d", PNone);
   ("data_points", PInt data_points);
   ("calculation_time", PStr "0.001s")].

Definition _determine_trend_direction (slope significance : Q) : string :=
  if Qltb significance (3 # 10) then "neutral"
  else if Qgtb slope (15 # 100) && Qgtb significance (7 # 10) then "strong_bull"
  else if Qgtb slope (8 # 100) && Qgtb significance (5 # 10) then "moderate_bull"
  else if Qgtb slope (3 # 100) then "weak_bull"
  else if Qltb slope (- (15 # 100)) && Qgtb significance (7 # 10) then "strong_bear"
  else if Qltb slope (- (8 # 100)) && Qgtb significance (5 # 10) then "moderate_bear"
  else if Qltb slope (- (3 # 100)) then "weak_bear"
  else "neutral".

Definition classify_rtsi_by_value (rtsi_value : Q) : string :=
  if Qgeb rtsi_value 75 then "strong_bull"
  else if Qgeb rtsi_value 60 then "moderate_bull"
  else if Qgeb rtsi_value 50 then "weak_bull"
  else if Qgeb rtsi_value 40 then "neutral"
  else if Qgeb rtsi_value 30 then "weak_bear"
  else if Qgeb rtsi_value 20 then "moderate_bear"
  else "strong_bear".

(** [scores.iloc[-k]] for [1 <= k <= len(scores)]. *)
Definition iloc_from_end (scores : list Z) (k : nat) : Z :=
  nth (List.length scores - k) scores 0.

Definition _calculate_score_change (scores : list Z) (days : nat) : pyval :=
  if (List.length scores <? days + 1)%nat then PNone
  else PFloat (inject_Z (iloc_from_end scores 1 - iloc_from_end scores (days + 1))).

(** ** The clock *)

(** A computation that reads the clock: from the number of reads made so
    far to a result and the number of reads made after it. *)
Definition Clocked (A : Type) : Type := nat -> A * nat.

Definition ret {A} (a : A) : Clocked A := fun n => (a, n).

Definition bind {A B} (c : Clocked A) (k : A -> Clocked B) : Clocked B :=
  fun n => let (a, n') := c n in k a n'.

Notation "x <- c ;; k" := (bind c (fun x => k))
  (at level 61, c at next level, right associativity).

(** ** Tables *)

(** A DataFrame: its column names and, for each row, the index label (an
    integer, as in the default index) and one cell per column. *)
Record DataFrame : Type := {
  columns : list string;
  rows : list (Z * list cell)
}.

Fixpoint index_of (name : string) (names : list string) : option nat :=
  match names with
  | [] => None
  | n :: rest =>
      if String.eqb n name then Some 0%nat
      else option_map S (index_of name rest)
  end.

(** [row.get(name, default)] *)
Definition row_get (cols : list string) (cells : list cell)
           (name : string) (default : cell) : cell :=
  match index_of name cols with
  | Some i => nth i cells CNaN
  | None => default
  end.

(** [list.sort()] on strings: ascending by code point. *)
Fixpoint insert_string (s : string) (l : list string) : list string :=
  match l with
  | [] => [s]
  | t :: rest => if String.leb s t then s :: l else t :: insert_string s rest
  end.

Definition sort_strings (l : list string) : list string :=
  fold_right insert_string [] l.

(** [[col for col in stock_data.columns if str(col).startswith('202')]],
    then [.sort()]. *)
Definition date_columns_of (cols : list string) : list string :=
  sort_strings (filter (String.prefix "202") cols).

(** ** Sorting and slicing for the ranking *)

Section StableSort.
Context {A : Type} (key : A -> Q).

(** [l.sort(key=key, reverse=True)]: descending by key, and elements with
    equal keys keep their order. *)
Fixpoint insert_desc (x : A) (l : list A) : list A :=
  match l with
  | [] => [x]
  | y :: rest =>
      if Qltb (key x) (key y) then y :: insert_desc x rest else x :: l
  end.

Definition sort_desc (l : list A) : list A := fold_right insert_desc [] l.
End StableSort.

(** [l[:n]]: a negative [n] counts from the end. *)
Definition slice_to {A} (n : Z) (l : list A) : list A :=
  if 0 <=? n then firstn (Z.to_nat n) l
  else firstn (List.length l - Z.to_nat (- n)) l.

(** [sub in s] *)
Fixpoint contains (sub s : string) : bool :=
  String.prefix sub s
  || match s with
     | EmptyString => false
     | String _ rest => contains sub rest
     end.

(** [v > 0]: numbers compare by value, anything else raises TypeError. *)
Definition py_gt_zero (v : pyval) : outcome bool :=
  match v with
  | PInt z => Returned (0 <? z)
  | PFloat q => Returned (Qgtb q 0)
  | PNaN => Returned false
  | PNone | PStr _ => Raised "TypeError: '>' not supported"
  end.

(** The number a value compares as. *)
Definition number_of (v : pyval) : Q :=
  match v with
  | PInt z => inject_Z z
  | PFloat q => q
  | _ => 0
  end.

(** [sub not in trend]: raises TypeError unless [trend] is a string. *)
Definition py_not_in (sub : string) (trend : pyval) : outcome bool :=
  match trend with
  | PStr s => Returned (negb (contains sub s))
  | _ => Raised "TypeError: argument is not iterable"
  end.

(** [trend != s] *)
Definition py_ne_str (trend : pyval) (s : string) : bool :=
  match trend with
  | PStr t => negb (String.eqb t s)
  | _ => true
  end.

(** The trend filter of the ranking loop: whether the entry is skipped
    ([continue]). *)
Definition trend_filtered_out (trend_filter : option string) (result : dict pyval)
  : outcome bool :=
  match trend_filter with
  | None | Some EmptyString => Returned false
  | Some f =>
      let trend := dict_get_default result "trend" (PStr "") in
      if String.eqb f "up" then py_not_in "up" trend
      else if String.eqb f "down" then py_not_in "down" trend
      else if String.eqb f "strong_up" then Returned (py_ne_str trend "strong_up")
      else if String.eqb f "strong_down" then Returned (py_ne_str trend "strong_down")
      else Returned false
  end.

(** The 6-tuples collected by the ranking loop. *)
Record RankRow : Type := {
  rank_code : string;
  rank_name : pyval;
  rank_rtsi : pyval;
  rank_trend : pyval;
  rank_confidence : pyval;
  rank_recent_score : pyval
}.

Definition rank_row (stock_code : string) (result : dict pyval) : RankRow :=
  {| rank_code := stock_code;
     rank_name := dict_get_default result "stock_name" (PStr "未知");
     rank_rtsi := dict_get_default result "rtsi" (PInt 0);
     rank_trend := dict_get_default result "trend" (PStr "unknown");
     rank_confidence := dict_get_default result "confidence" (PInt 0);
     rank_recent_score := dict_get_default result "recent_score" (PInt 0) |}.

(** The loop over [rtsi_results.items()]. *)
Fixpoint valid_results_of (items : dict (dict pyval)) (trend_filter : option string)
  : outcome (list RankRow) :=
  match items with
  | [] => Returned []
  | (stock_code, result) :: rest =>
      match py_gt_zero (dict_get_default result "rtsi" (PInt 0)) with
      | Raised e => Raised e
      | Returned false => valid_results_of rest trend_filter
      | Returned true =>
          match trend_filtered_out trend_filter result with
          | Raised e => Raised e
          | Returned true => valid_results_of rest trend_filter
          | Returned false =>
              match valid_results_of rest trend_filter with
              | Raised e => Raised e
              | Returned l => Returned (rank_row stock_code result :: l)
              end
          end
      end
  end.

Definition rank_tuple (x : RankRow) : string * pyval * pyval * pyval :=
  (rank_code x, rank_name x, rank_rtsi x, rank_trend x).

Definition get_rtsi_ranking (rtsi_results : dict (dict pyval)) (top_n : Z)
           (trend_filter : option string)
  : outcome (list (string * pyval * pyval * pyval)) :=
  match rtsi_results with
  | [] => Returned []
  | _ =>
      match valid_results_of rtsi_results trend_filter with
      | Raised e => Raised e
      | Returned valid_results =>
          let sorted := sort_desc (fun x => number_of (rank_rtsi x)) valid_results in
          Returned (map rank_tuple (slice_to top_n sorted))
      end
  end.

(** ** The scorer, the batch engine and the calculator object *)

Section RTSI.

(** [config.RATING_SCORE_MAP], or [None] when importing [config] fails. *)
Variable config_RATING_SCORE_MAP : option rating_map.

(** [scipy.stats.linregress(x, y)]. *)
Variable linregress : list Z -> list Z -> outcome LinregressResult.

(** The value of the n-th [datetime.now()], in microseconds. *)
Variable clock : nat -> Z.

Definition RATING_SCORE_MAP : rating_map :=
  match config_RATING_SCORE_MAP with
  | Some m => m
  | None => DEFAULT_RATING_SCORE_MAP
  end.

Definition datetime_now : Clocked Z := fun n => (clock n, S n).

(** The local variables of the regression branch, from the regression
    outputs [reg] and [n = len(scores)]. *)
Definition consistency (reg : LinregressResult) : Q := (r_value reg ^ 2)%Q.

Definition significance (reg : LinregressResult) : Q :=
  if Qltb (p_value reg) (5 # 100) then py_max 0 (1 - p_value reg)%Q else 0%Q.

Definition rating_scale_max : Q := 7.

Definition amplitude (reg : LinregressResult) (n : nat) : Q :=
  py_min (Qabs (slope reg) * inject_Z (Z.of_nat n) / rating_scale_max)%Q 1.

Definition rtsi (reg : LinregressResult) (n : nat) : Q :=
  ((consistency reg * (4 # 10) + significance reg * (3 # 10)
    + amplitude reg n * (3 # 10)) * 100)%Q.

Definition calculate_rating_trend_strength_index
           (stock_ratings : option (list cell)) : Clocked (dict pyval) :=
  calculation_start <- datetime_now ;;
  match stock_ratings with
  | None => ret (_get_insufficient_data_result 0)
  | Some ratings =>
      if (List.length ratings =? 0)%nat then ret (_get_insufficient_data_result 0)
      else
        let scores := encode RATING_SCORE_MAP ratings in
        let n := List.length scores in
        if (n <? 5)%nat then ret (_get_insufficient_data_result (Z.of_nat n))
        else
          match linregress (arange n) scores with
          | Returned reg =>
              let trend_direction :=
                _determine_trend_direction (slope reg) (significance reg) in
              let recent_score :=
                if (0 <? n)%nat then PInt (iloc_from_end scores 1) else PNone in
              let score_change_5d := _calculate_score_change scores 5 in
              calculation_end <- datetime_now ;;
              ret [("rtsi", PFloat (py_round (rtsi reg n) 2));
                   ("trend", PStr trend_direction);
                   ("confidence", PFloat (py_round (significance reg) 3));
                   ("slope", PFloat (py_round (slope reg) 4));
                   ("r_squared", PFloat (py_round (consistency reg) 3));
                   ("recent_score", recent_score);
                   ("score_change_5d", score_change_5d);
                   ("data_points", PInt (Z.of_nat n));
                   ("calculation_time",
                    PStr (format_elapsed (calculation_end - calculation_start)))]
          | Raised e =>
              calculation_end <- datetime_now ;;
              ret [("rtsi", PInt 0);
                   ("trend", PStr "calculation_error");
                   ("confidence", PInt 0);
                   ("error", PStr e);
                   ("data_points", PInt (Z.of_nat n));
                   ("calculation_time",
                    PStr (format_elapsed (calculation_end - calculation_start)))]
          end
  end.

(** [str(row.get('股票代码', f'STOCK_{idx}'))] *)
Definition stock_code_of (cols : list string) (row : Z * list cell) : string :=
  cell_str (row_get cols (snd row) "股票代码" (CStr ("STOCK_" ++ str_of_Z (fst row)))).

(** The body of the loop over [stock_data.iterrows()], for the rows left. *)
Fixpoint batch_loop (cols date_columns : list string) (todo : list (Z * list cell))
         (results : dict (dict pyval)) : Clocked (dict (dict pyval)) :=
  match todo with
  | [] => ret results
  | row :: rest =>
      let stock_code := stock_code_of cols row in
      let stock_name := row_get cols (snd row) "股票名称" (CStr "未知股票") in
      let stock_ratings := map (fun c => row_get cols (snd row) c CNaN) date_columns in
      rtsi_result <- calculate_rating_trend_strength_index (Some stock_ratings) ;;
      let rtsi_result :=
        dict_update rtsi_result
          [("stock_code", PStr stock_code);
           ("stock_name", cell_value stock_name);
           ("industry", cell_value (row_get cols (snd row) "行业" (CStr "未分类")))] in
      batch_loop cols date_columns rest (dict_set results stock_code rtsi_result)
  end.

(** The last progress line divides by the elapsed time, so a batch that
    starts and ends on the same clock value raises ZeroDivisionError. *)
Definition batch_calculate_rtsi (stock_data : option DataFrame)
  : Clocked (outcome (dict (dict pyval))) :=
  match stock_data with
  | None => ret (Returned [])
  | Some df =>
      if (List.length (rows df) =? 0)%nat then ret (Returned [])
      else
        batch_start <- datetime_now ;;
        let date_columns := date_columns_of (columns df) in
        if (List.length date_columns =? 0)%nat then ret (Returned [])
        else
          results <- batch_loop (columns df) date_columns (rows df) [] ;;
          batch_end <- datetime_now ;;
          if batch_end - batch_start =? 0
          then ret (Raised "ZeroDivisionError: float division by zero")
          else ret (Returned results)
  end.

(** The calculator object. *)
Record RTSICalculator : Type := {
  calc_rating_map : rating_map;
  min_data_points : Z;
  calculation_count : Z
}.

(** [RTSICalculator(rating_map, min_data_points)]: [rating_map or
    RATING_SCORE_MAP] takes the global map for [None] and for an empty map. *)
Definition RTSICalculator_init (rating_map_arg : option rating_map)
           (min_data_points_arg : Z) : RTSICalculator :=
  {| calc_rating_map :=
       match rating_map_arg with
       | None | Some [] => RATING_SCORE_MAP
       | Some m => m
       end;
     min_data_points := min_data_points_arg;
     calculation_count := 0 |}.

Definition RTSICalculator_calculate (self : RTSICalculator)
           (stock_ratings : option (list cell))
  : Clocked (RTSICalculator * dict pyval) :=
  let self' := {| calc_rating_map := calc_rating_map self;
                  min_data_points := min_data_points self;
                  calculation_count := calculation_count self + 1 |} in
  result <- calculate_rating_trend_strength_index stock_ratings ;;
  ret (self', result).

End RTSI.

(** ** Terminology and risk level *)

Definition terminology_entry (short detailed english : string) (confidence_required : Q)
  : dict pyval :=
  [("short", PStr short);
   ("detailed", PStr detailed);
   ("english", PStr english);
   ("confidence_required", PFloat confidence_required)].

Definition terminology : dict (dict pyval) :=
  [("strong_bull",
    terminology_entry "强势多头" "强势多头趋势，技术面极度乐观，建议积极配置"
      "Strong Bullish Trend" (7 # 10));
   ("moderate_bull",
    terminology_entry "温和多头" "温和多头趋势，上升动能充足，适合中线持有"
      "Moderate Bullish Trend" (5 # 10));
   ("weak_bull",
    terminology_entry "弱势多头" "弱势多头格局，上升空间有限，谨慎乐观"
      "Weak Bullish Bias" (4 # 10));
   ("neutral",
    terminology_entry "横盘整理" "横盘整理格局，方向选择待定，观望为主"
      "Sideways Consolidation" (3 # 10));
   ("weak_bear",
    terminology_entry "弱势空头" "弱势空头格局，下跌空间有限，适度防御"
      "Weak Bearish Bias" (4 # 10));
   ("moderate_bear",
    terminology_entry "温和空头" "温和空头趋势，下跌动能充足，建议减仓"
      "Moderate Bearish Trend" (5 # 10));
   ("strong_bear",
    terminology_entry "强势空头" "强势空头趋势，技术面极度悲观，严格风控"
      "Strong Bearish Trend" (7 # 10))].

Definition unknown_terminology : dict pyval :=
  terminology_entry "未知趋势" "趋势方向不明确，建议谨慎操作" "Unknown Trend" (5 # 10).

Definition get_professional_terminology (trend_category : string) : dict pyval :=
  dict_get_default terminology trend_category unknown_terminology.

Definition calculate_risk_level_unified (rtsi_value confidence : Q) : string :=
  if Qgeb rtsi_value 75 && Qgeb confidence (7 # 10) then "🟢 极低风险（强势确认）"
  else if Qgeb rtsi_value 75 && Qgeb confidence (4 # 10) then "🟡 中等风险（强势待确认）"
  else if Qgeb rtsi_value 60 && Qgeb confidence (5 # 10) then "🟢 低风险（温和上升）"
  else if Qgeb rtsi_value 50 && Qgeb confidence (4 # 10) then "🟡 中等风险（弱势多头）"
  else if Qgeb rtsi_value 40 then "🟡 中等风险（中性区间）"
  else if Qgeb rtsi_value 30 then "🟠 较高风险（弱势空头）"
  else if Qgeb rtsi_value 20 && Qgeb confidence (5 # 10) then "🔴 高风险（温和下跌）"
  else if Qltb rtsi_value 20 && Qgeb confidence (7 # 10) then "🔴 极高风险（强势下跌确认）"
  else "🔴 高风险".

(** ** Statistics *)

(** [a == b] on the values modelled: an int and a float are equal when they
    are the same number; NaN is the one object [np.nan], found by identity
    when it is a dictionary key. *)
Definition py_eqb (a b : pyval) : bool :=
  match a, b with
  | PNone, PNone => true
  | PStr s, PStr t => String.eqb s t
  | PNaN, PNaN => true
  | PInt x, PInt y => Z.eqb x y
  | PInt x, PFloat q | PFloat q, PInt x => Qeq_bool (inject_Z x) q
  | PFloat p, PFloat q => Qeq_bool p q
  | _, _ => false
  end.

(** [counts[key] = counts.get(key, 0) + 1], on a dictionary whose keys are
    values. *)
Fixpoint count_one (counts : list (pyval * Z)) (key : pyval) : list (pyval * Z) :=
  match counts with
  | [] => [(key, 0 + 1)]
  | (k, c) :: rest =>
      if py_eqb k key then (k, c + 1) :: rest else (k, c) :: count_one rest key
  end.

(** The loop that fills [trend_counts]. *)
Definition trend_counts_of (results : list (dict pyval)) : list (pyval * Z) :=
  fold_left
    (fun counts result => count_one counts (dict_get_default result "trend" (PStr "unknown")))
    results [].

(** [[result['rtsi'] for result in ... if result.get('rtsi', 0) > 0]] *)
Fixpoint valid_rtsi_of (results : list (dict pyval)) : outcome (list pyval) :=
  match results with
  | [] => Returned []
  | result :: rest =>
      match py_gt_zero (dict_get_default result "rtsi" (PInt 0)) with
      | Raised e => Raised e
      | Returned keep =>
          match valid_rtsi_of rest with
          | Raised e => Raised e
          | Returned l =>
              Returned (if keep then dict_get_default result "rtsi" PNone :: l else l)
          end
      end
  end.

Definition Qsum (l : list Q) : Q := fold_right Qplus 0%Q l.

(** [np.mean], read as the exact mean of the numbers.  The code's mean is
    a rounded sum divided by the count and need not equal it; no property
    below states anything about the value of [rtsi_mean]. *)
Definition np_mean (l : list Q) : Q := (Qsum l / inject_Z (Z.of_nat (List.length l)))%Q.

(** [np.median]: the middle of the sorted values, or the mean of the two
    middle ones (the same read off a descending or an ascending order). *)
Definition np_median (l : list Q) : Q :=
  let sorted := sort_desc (fun x => x) l in
  let n := List.length l in
  if Nat.even n
  then ((nth (n / 2 - 1) sorted 0 + nth (n / 2) sorted 0) / 2)%Q
  else nth (n / 2) sorted 0%Q.

(** [max(l)] and [min(l)] on a non-empty list of numbers: the first of the
    largest (smallest) elements. *)
Definition py_max_list (first : pyval) (rest : list pyval) : pyval :=
  fold_left (fun best x => if Qltb (number_of best) (number_of x) then x else best)
            rest first.

Definition py_min_list (first : pyval) (rest : list pyval) : pyval :=
  fold_left (fun best x => if Qltb (number_of x) (number_of best) then x else best)
            rest first.

(** A value of the statistics dictionary: a number, or the trend counts. *)
Inductive statval : Type :=
| SVal (v : pyval)
| SCounts (counts : list (pyval * Z)).

Section Statistics.

(** [np.std], the population standard deviation. *)
Variable np_std : list Q -> Q.

Definition get_rtsi_statistics (rtsi_results : dict (dict pyval))
  : outcome (dict statval) :=
  match rtsi_results with
  | [] => Returned []
  | _ =>
      match valid_rtsi_of (map snd rtsi_results) with
      | Raised e => Raised e
      | Returned [] =>
          Returned [("total_stocks", SVal (PInt (Z.of_nat (List.length rtsi_results))));
                    ("valid_calculations", SVal (PInt 0))]
      | Returned (first :: rest) =>
          let valid_rtsi := first :: rest in
          let numbers := map number_of valid_rtsi in
          let trend_counts := trend_counts_of (map snd rtsi_results) in
          Returned
            [("total_stocks", SVal (PInt (Z.of_nat (List.length rtsi_results))));
             ("valid_calculations", SVal (PInt (Z.of_nat (List.length valid_rtsi))));
             ("success_rate",
              SVal (PFloat (inject_Z (Z.of_nat (List.length valid_rtsi))
                            / inject_Z (Z.of_nat (List.length rtsi_results)) * 100)));
             ("rtsi_mean", SVal (PFloat (np_mean numbers)));
             ("rtsi_median", SVal (PFloat (np_median numbers)));
             ("rtsi_std", SVal (PFloat (np_std numbers)));
             ("rtsi_max", SVal (py_max_list first rest));
             ("rtsi_min", SVal (py_min_list first rest));
             ("trend_distribution", SCounts trend_counts)]
      end
  end.

End Statistics.

(** ** The other methods of the calculator object *)

Section CalculatorMethods.

Variable config_RATING_SCORE_MAP : option rating_map.
Variable linregress : list Z -> list Z -> outcome LinregressResult.
Variable clock : nat -> Z.
Variable np_std : list Q -> Q.

Definition RTSICalculator_batch_calculate (self : RTSICalculator)
           (stock_data : option DataFrame)
  : Clocked (RTSICalculator * outcome (dict (dict pyval))) :=
  results <- batch_calculate_rtsi config_RATING_SCORE_MAP linregress clock stock_data ;;
  ret (self, results).

Definition RTSICalculator_get_ranking (self : RTSICalculator)
           (rtsi_results : dict (dict pyval)) (top_n : Z) (trend_filter : option string)
  : outcome (list (string * pyval * pyval * pyval)) :=
  get_rtsi_ranking rtsi_results top_n trend_filter.

Definition RTSICalculator_get_statistics (self : RTSICalculator)
           (rtsi_results : dict (dict pyval)) : outcome (dict statval) :=
  get_rtsi_statistics np_std rtsi_results.

Definition RTSICalculator_reset_counter (self : RTSICalculator) : RTSICalculator :=
  {| calc_rating_map := calc_rating_map self;
     min_data_points := min_data_points self;
     calculation_count := 0 |}.

(** [__str__] *)
Definition RTSICalculator_str (self : RTSICalculator) : string :=
  "RTSICalculator(calculations=" ++ str_of_Z (calculation_count self)
    ++ ", min_points=" ++ str_of_Z (min_data_points self) ++ ")".

(** A run of [calculate] calls on one object, in order. *)
Fixpoint calculate_all (self : RTSICalculator) (inputs : list (option (list cell)))
  : Clocked (RTSICalculator * list (dict pyval)) :=
  match inputs with
  | [] => ret (self, [])
  | stock_ratings :: rest =>
      r <- RTSICalculator_calculate config_RATING_SCORE_MAP linregress clock self
             stock_ratings ;;
      rs <- calculate_all (fst r) rest ;;
      ret (fst rs, snd r :: snd rs)
  end.

End CalculatorMethods.

(** ** The scorer on regression outputs that may be NaN

    [scipy.stats.linregress] can answer NaN: for a sequence of equal scores
    scipy 1.17 reports a correlation coefficient and a p-value that are NaN,
    and raises nothing.  The definitions below repeat the regression branch
    of the scorer for outputs that are a number or NaN, by Python's rules:
    arithmetic with NaN gives NaN, and every comparison with NaN is false.
    They also keep the integer [0] of [significance] apart from a float. *)

Inductive pyfloat : Type :=
| Finite (q : Q)
| NotANumber.

Definition float_binop (op : Q -> Q -> Q) (a b : pyfloat) : pyfloat :=
  match a, b with
  | Finite x, Finite y => Finite (op x y)
  | _, _ => NotANumber
  end.

(** [a < b] *)
Definition float_lt (a b : pyfloat) : bool :=
  match a, b with
  | Finite x, Finite y => Qltb x y
  | _, _ => false
  end.

(** [min(a, b)]: the first argument unless the second is strictly smaller. *)
Definition float_min (a b : pyfloat) : pyfloat := if float_lt b a then b else a.

Definition float_abs (a : pyfloat) : pyfloat :=
  match a with
  | Finite x => Finite (Qabs x)
  | NotANumber => NotANumber
  end.

(** [a ** 2] *)
Definition float_square (a : pyfloat) : pyfloat :=
  match a with
  | Finite x => Finite (x ^ 2)
  | NotANumber => NotANumber
  end.

(** [round(a, ndigits)]: NaN stays NaN. *)
Definition float_round (a : pyfloat) (ndigits : nat) : pyfloat :=
  match a with
  | Finite x => Finite (py_round x ndigits)
  | NotANumber => NotANumber
  end.

Definition float_value (a : pyfloat) : pyval :=
  match a with
  | Finite x => PFloat x
  | NotANumber => PNaN
  end.

(** An [int] or a [float]. *)
Inductive pynumber : Type :=
| IntNumber (z : Z)
| FloatNumber (f : pyfloat).

(** The float an arithmetic operation or a comparison with a float sees. *)
Definition to_float (x : pynumber) : pyfloat :=
  match x with
  | IntNumber z => Finite (inject_Z z)
  | FloatNumber f => f
  end.

(** [round(x, ndigits)] with [ndigits > 0]: an [int] is returned as it is. *)
Definition number_round (x : pynumber) (ndigits : nat) : pynumber :=
  match x with
  | IntNumber z => IntNumber z
  | FloatNumber f => FloatNumber (float_round f ndigits)
  end.

Definition number_value (x : pynumber) : pyval :=
  match x with
  | IntNumber z => PInt z
  | FloatNumber f => float_value f
  end.

Record LinregressFloats : Type := {
  float_slope : pyfloat;
  float_intercept : pyfloat;
  float_r_value : pyfloat;
  float_p_value : pyfloat;
  float_std_err : pyfloat
}.

Definition consistency_nan (reg : LinregressFloats) : pyfloat :=
  float_square (float_r_value reg).

(** [max(0, 1 - p_value) if p_value < 0.05 else 0]: the float [1 - p_value]
    when it is above 0, and the integer [0] otherwise. *)
Definition significance_nan (reg : LinregressFloats) : pynumber :=
  if float_lt (float_p_value reg) (Finite (5 # 100))
  then if float_lt (Finite 0) (float_binop Qminus (Finite 1) (float_p_value reg))
       then FloatNumber (float_binop Qminus (Finite 1) (float_p_value reg))
       else IntNumber 0
  else IntNumber 0.

Definition amplitude_nan (reg : LinregressFloats) (n : nat) : pyfloat :=
  float_min
    (float_binop Qdiv
       (float_binop Qmult (float_abs (float_slope reg))
          (Finite (inject_Z (Z.of_nat n))))
       (Finite rating_scale_max))
    (Finite 1).

Definition rtsi_nan (reg : LinregressFloats) (n : nat) : pyfloat :=
  float_binop Qmult
    (float_binop Qplus
       (float_binop Qplus
          (float_binop Qmult (consistency_nan reg) (Finite (4 # 10)))
          (float_binop Qmult (to_float (significance_nan reg)) (Finite (3 # 10))))
       (float_binop Qmult (amplitude_nan reg n) (Finite (3 # 10))))
    (Finite 100).

Definition _determine_trend_direction_nan
           (slope : pyfloat) (significance : pynumber) : string :=
  let significance := to_float significance in
  if float_lt significance (Finite (3 # 10)) then "neutral"
  else if float_lt (Finite (15 # 100)) slope && float_lt (Finite (7 # 10)) significance
       then "strong_bull"
  else if float_lt (Finite (8 # 100)) slope && float_lt (Finite (5 # 10)) significance
       then "moderate_bull"
  else if float_lt (Finite (3 # 100)) slope then "weak_bull"
  else if float_lt slope (Finite (- (15 # 100)))
          && float_lt (Finite (7 # 10)) significance
       then "strong_bear"
  else if float_lt slope (Finite (- (8 # 100)))
          && float_lt (Finite (5 # 10)) significance
       then "moderate_bear"
  else if float_lt slope (Finite (- (3 # 100))) then "weak_bear"
  else "neutral".

Section ScorerWithNaN.

Variable config_RATING_SCORE_MAP : option rating_map.

(** [scipy.stats.linregress(x, y)], with outputs that may be NaN. *)
Variable linregress_nan : list Z -> list Z -> outcome LinregressFloats.

Variable clock : nat -> Z.

Definition calculate_rating_trend_strength_index_nan
           (stock_ratings : option (list cell)) : Clocked (dict pyval) :=
  calculation_start <- datetime_now clock ;;
  match stock_ratings with
  | None => ret (_get_insufficient_data_result 0)
  | Some ratings =>
      if (List.length ratings =? 0)%nat then ret (_get_insufficient_data_result 0)
      else
        let scores := encode (RATING_SCORE_MAP config_RATING_SCORE_MAP) ratings in
        let n := List.length scores in
        if (n <? 5)%nat then ret (_get_insufficient_data_result (Z.of_nat n))
        else
          match linregress_nan (arange n) scores with
          | Returned reg =>
              let trend_direction :=
                _determine_trend_direction_nan (float_slope reg) (significance_nan reg) in
              let recent_score :=
                if (0 <? n)%nat then PInt (iloc_from_end scores 1) else PNone in
              let score_change_5d := _calculate_score_change scores 5 in
              calculation_end <- datetime_now clock ;;
              ret [("rtsi", float_value (float_round (rtsi_nan reg n) 2));
                   ("trend", PStr trend_direction);
                   ("confidence", number_value (number_round (significance_nan reg) 3));
                   ("slope", float_value (float_round (float_slope reg) 4));
                   ("r_squared", float_value (float_round (consistency_nan reg) 3));
                   ("recent_score", recent_score);
                   ("score_change_5d", score_change_5d);
                   ("data_points", PInt (Z.of_nat n));
                   ("calculation_time",
                    PStr (format_elapsed (calculation_end - calculation_start)))]
          | Raised e =>
              calculation_end <- datetime_now clock ;;
              ret [("rtsi", PInt 0);
                   ("trend", PStr "calculation_error");
                   ("confidence", PInt 0);
                   ("error", PStr e);
                   ("data_points", PInt (Z.of_nat n));
                   ("calculation_time",
                    PStr (format_elapsed (calculation_end - calculation_start)))]
          end
  end.

End ScorerWithNaN.

(** Regression outputs that are numbers, as outputs that may be NaN. *)
Definition finite_outputs (reg : LinregressResult) : LinregressFloats :=
  {| float_slope := Finite (slope reg);
     float_intercept := Finite (intercept reg);
     float_r_value := Finite (r_value reg);
     float_p_value := Finite (p_value reg);
     float_std_err := Finite (std_err reg) |}.

Definition finite_linregress
           (linregress : list Z -> list Z -> outcome LinregressResult)
           (x y : list Z) : outcome LinregressFloats :=
  match linregress x y with
  | Returned reg => Returned (finite_outputs reg)
  | Raised e => Raised e
  end.

(** Two field values are the same, or the first is the integer [0] where the
    second writes the float [0.0] (as [significance] does for the [0] of a
    regression that is not significant). *)
Definition same_value (a b : pyval) : Prop :=
  a = b \/ (a = PInt 0 /\ b = PFloat (py_round 0 3)).

Definition same_record (a b : dict pyval) : Prop :=
  Forall2 (fun x y => fst x = fst y /\ same_value (snd x) (snd y)) a b.

(** ** The specification's formulas

    These follow the words of the specification (section 4.2 and 4.3), to
    be compared with what the code computes. *)

Definition spec_consistency (reg : LinregressResult) : Q :=
  (r_value reg * r_value reg)%Q.

Definition spec_significance (reg : LinregressResult) : Q :=
  if Qlt_le_dec (p_value reg) (5 # 100)
  then Qmax 0 (1 - p_value reg)
  else 0%Q.

Definition spec_amplitude (reg : LinregressResult) (n : nat) : Q :=
  Qmin 1 (Qabs (slope reg) * inject_Z (Z.of_nat n) / 7).

Definition spec_rtsi (reg : LinregressResult) (n : nat) : Q :=
  (100 * ((4 # 10) * spec_consistency reg + (3 # 10) * spec_significance reg
          + (3 # 10) * spec_amplitude reg n))%Q.



(** ** Notions used in the statements *)

(** The number of valid (mappable) points of an input sequence. *)
Definition valid_points (m : rating_map) (stock_ratings : option (list cell)) : nat :=
  match stock_ratings with
  | None => 0%nat
  | Some ratings => List.length (encode m ratings)
  end.


(** The number stored under [rtsi], 0 when the key is absent. *)
Definition rtsi_number (result : dict pyval) : Q :=
  number_of (dict_get_default result "rtsi" (PInt 0)).

Definition has_positive_rtsi (result : dict pyval) : bool :=
  Qgtb (rtsi_number result) 0.

(** A record whose [rtsi], when present, is a number (as every record built
    by the scorer is). *)
Definition rtsi_is_numeric (result : dict pyval) : bool :=
  match dict_get result "rtsi" with
  | Some PNone | Some (PStr _) => false
  | _ => true
  end.

(** The (identifier, name, rtsi, trend) tuple of an entry of a result set. *)
Definition ranking_entry (kv : string * dict pyval) : string * pyval * pyval * pyval :=
  (fst kv,
   dict_get_default (snd kv) "stock_name" (PStr "未知"),
   dict_get_default (snd kv) "rtsi" (PInt 0),
   dict_get_default (snd kv) "trend" (PStr "unknown")).

(** The trend read off the slope alone, with the slope thresholds of
    [_determine_trend_direction]. *)
Definition trend_by_slope (slope : Q) : string :=
  if Qgtb slope (15 # 100) then "strong_bull"
  else if Qgtb slope (8 # 100) then "moderate_bull"
  else if Qgtb slope (3 # 100) then "weak_bull"
  else if Qltb slope (- (15 # 100)) then "strong_bear"
  else if Qltb slope (- (8 # 100)) then "moderate_bear"
  else if Qltb slope (- (3 # 100)) then "weak_bear"
  else "neutral".

(** The seven trend categories, from the most bearish to the most bullish. *)
Definition trend_categories : list string :=
  ["strong_bear"; "moderate_bear"; "weak_bear"; "neutral"; "weak_bull";
   "moderate_bull"; "strong_bull"].

(** The position of a category in that order. *)
Definition trend_rank (trend : string) : Z :=
  match index_of trend trend_categories with
  | Some i => Z.of_nat i
  | None => -1
  end.

(** The category of the opposite direction. *)
Definition mirror_trend (trend : string) : string :=
  match index_of trend trend_categories with
  | Some i => nth (6 - i) trend_categories trend
  | None => trend
  end.

(** Every [trend] a record of the scorer can hold. *)
Definition scorer_trends : list string :=
  (trend_categories ++ ["insufficient_data"; "calculation_error"])%list.

(** The record stored for a row: the scorer's record with the row's
    identifier, name and industry added. *)
Definition with_metadata (cols : list string) (row : Z * list cell)
           (rtsi_result : dict pyval) : dict pyval :=
  dict_update rtsi_result
    [("stock_code",
      PStr (cell_str (row_get cols (snd row) "股票代码"
                        (CStr ("STOCK_" ++ str_of_Z (fst row))))));
     ("stock_name", cell_value (row_get cols (snd row) "股票名称" (CStr "未知股票")));
     ("industry", cell_value (row_get cols (snd row) "行业" (CStr "未分类")))].

(** The number a statistics entry holds, if it is one. *)
Definition stat_number (stats : dict statval) (key : string) : option Q :=
  match dict_get stats key with
  | Some (SVal (PInt z)) => Some (inject_Z z)
  | Some (SVal (PFloat q)) => Some q
  | _ => None
  end.

(** A record whose [trend], when present, is one the scorer writes. *)
Definition has_scorer_trend (result : dict pyval) : Prop :=
  match dict_get result "trend" with
  | Some (PStr t) => In t scorer_trends
  | Some _ => False
  | None => True
  end.

(** The trend filters the ranking documents. *)
Definition documented_filters : list string :=
  ["up"; "down"; "strong_up"; "strong_down"].

(** The sum of the counts of a trend distribution. *)
Definition total_count (counts : list (pyval * Z)) : Z :=
  fold_right Z.add 0 (map snd counts).

(** The entries of a result set that count as valid: those with rtsi > 0. *)
Definition valid_entries (rtsi_results : dict (dict pyval)) : dict (dict pyval) :=
  filter (fun kv => has_positive_rtsi (snd kv)) rtsi_results.

(** The result set of an outcome, empty when it raised. *)
Definition results_of (o : outcome (dict (dict pyval))) : dict (dict pyval) :=
  match o with
  | Returned results => results
  | Raised _ => []
  end.

(** ** Test data

    The sequence and the table of [test_rtsi_calculator]; a regression
    routine that answers with the perfect fit of that sequence (slope 1,
    correlation 1, p-value 0) and one that raises, standing in for the
    external routine; a clock; and small inputs for the properties below. *)

Definition test_ratings : list cell :=
  [CStr "中空"; CStr "小空"; CStr "微空"; CStr "微多"; CStr "小多"; CStr "中多";
   CStr "大多"].

Definition test_data : DataFrame :=
  {| columns := ["股票代码"; "股票名称"; "行业"; "20250601"; "20250602";
                 "20250603"; "20250604"; "20250605"];
     rows :=
       [(0, [CStr "000001"; CStr "测试股票A"; CStr "银行"; CStr "中空"; CStr "小空";
             CStr "微空"; CStr "微多"; CStr "小多"]);
        (1, [CStr "000002"; CStr "测试股票B"; CStr "地产"; CStr "微多"; CStr "小多";
             CStr "中多"; CStr "大多"; CStr "中多"]);
        (2, [CStr "000003"; CStr "测试股票C"; CStr "科技"; CStr "大多"; CStr "中多";
             CStr "小多"; CStr "微多"; CStr "微空"])] |}.

Definition perfect_fit : LinregressResult :=
  {| slope := 1; intercept := 1; r_value := 1; p_value := 0; std_err := 0 |}.

Definition linregress_perfect (x y : list Z) : outcome LinregressResult :=
  Returned perfect_fit.

Definition linregress_raising (x y : list Z) : outcome LinregressResult :=
  Raised "Inputs must not be empty.".

(** Successive reads 0, 1000, 3000, 6000, ... microseconds. *)
Definition test_clock (n : nat) : Z := 500 * Z.of_nat n * (Z.of_nat n + 1).

(** Two rows with one identifier, and one date column. *)
Definition duplicate_code_table : DataFrame :=
  {| columns := ["股票代码"; "20250601"];
     rows := [(0, [CStr "000001"; CStr "大多"]); (1, [CStr "000001"; CStr "中空"])] |}.

(** The result set a batch over that table returns: the record of the
    second row, in the place of the first. *)
Definition duplicate_code_results : dict (dict pyval) :=
  [("000001",
    with_metadata (columns duplicate_code_table) (1, [CStr "000001"; CStr "中空"])
      (_get_insufficient_data_result 1))].

(** Five equal ratings, and the regression of a constant sequence: slope 0,
    the common score as intercept, and NaN for the correlation coefficient,
    the p-value and the standard error. *)
Definition constant_ratings : list cell :=
  [CStr "微多"; CStr "微多"; CStr "微多"; CStr "微多"; CStr "微多"].

Definition linregress_constant (x y : list Z) : outcome LinregressFloats :=
  Returned {| float_slope := Finite 0;
              float_intercept := Finite 4;
              float_r_value := NotANumber;
              float_p_value := NotANumber;
              float_std_err := NotANumber |}.

(** The result set of the module's test table, with the stand-in
    regression and the test clock. *)
Definition test_data_results : dict (dict pyval) :=
  results_of (fst (batch_calculate_rtsi None linregress_perfect test_clock
                     (Some test_data) 0%nat)).

(** A stand-in for [np.std]. *)
Definition std_stub (l : list Q) : Q := 0%Q.


(** A result set with a tie, a zero and a missing score. *)
Definition ranked_results : dict (dict pyval) :=
  [("A", [("rtsi", PFloat (50 # 1)); ("trend", PStr "weak_bull"); ("stock_name", PStr "a")]);
   ("B", [("rtsi", PInt 0); ("trend", PStr "insufficient_data"); ("stock_name", PStr "b")]);
   ("C", [("rtsi", PFloat (8125 # 100)); ("trend", PStr "strong_bull"); ("stock_name", PStr "c")]);
   ("D", [("rtsi", PFloat (100 # 2)); ("trend", PStr "neutral")]);
   ("E", [("trend", PStr "calculation_error")])].

(** A calculator configured with its own map and a threshold of 3, and a
    sequence in that map's symbols. *)
Definition custom_rating_map : rating_map :=
  [("buy", Some 7); ("hold", Some 4); ("sell", Some 0)].

Definition custom_ratings : list cell :=
  [CStr "sell"; CStr "hold"; CStr "hold"; CStr "buy"; CStr "buy"; CStr "buy"].

Definition three_ratings : list cell := [CStr "微多"; CStr "小多"; CStr "中多"].

(** * Properties *)

(** ** Checks of the model on concrete inputs *)

Example str_of_Z_ex : str_of_Z 42 = "42" /\ str_of_Z (-7) = "-7" /\ str_of_Z 0 = "0".
Proof. repeat split; reflexivity. Qed.

Example format_elapsed_ex :
  map format_elapsed [0; 1; 499; 500; 501; 1000; 1500; 2500; 62500; 187500;
                      999500; 1000500; 123456789; -1; -500]
  = ["0.000s"; "0.000s"; "0.000s"; "0.001s"; "0.001s"; "0.001s"; "0.002s";
     "0.003s"; "0.062s"; "0.188s"; "1.000s"; "1.000s"; "123.457s"; "-0.000s";
     "-0.001s"].
Proof. vm_compute. reflexivity. Qed.

Example score_change_ex :
  _calculate_score_change [1; 2; 3; 4; 5; 6; 7] 5 = PFloat (inject_Z 5)
  /\ _calculate_score_change [1; 2; 3; 4; 5] 5 = PNone.
Proof. split; reflexivity. Qed.

Example encode_ex :
  encode DEFAULT_RATING_SCORE_MAP test_ratings = [1; 2; 3; 4; 5; 6; 7]
  /\ encode DEFAULT_RATING_SCORE_MAP [CStr "大多"; CStr "-"; CNaN; CStr "hold"; CInt 7]
     = [7].
Proof. split; reflexivity. Qed.

(** The worked example of the specification: a perfect linear fit over
    seven points scores 100.00 and is a strong bull trend. *)
Example perfect_fit_ex :
  fst (calculate_rating_trend_strength_index None linregress_perfect test_clock
         (Some test_ratings) 0%nat)
  = [("rtsi", PFloat (10000 # 100));
     ("trend", PStr "strong_bull");
     ("confidence", PFloat (1000 # 1000));
     ("slope", PFloat (10000 # 10000));
     ("r_squared", PFloat (1000 # 1000));
     ("recent_score", PInt 7);
     ("score_change_5d", PFloat (inject_Z 5));
     ("data_points", PInt 7);
     ("calculation_time", PStr "0.001s")].
Proof. vm_compute. reflexivity. Qed.

(** [round(0.125, 2) = 0.12] and [round(0.375, 2) = 0.38]: ties go to the
    even digit. *)
Example py_round_ex :
  py_round (1 # 3) 3 = 333 # 1000
  /\ py_round (125 # 1000) 2 = 12 # 100
  /\ py_round (375 # 1000) 2 = 38 # 100
  /\ py_round (- (914286 # 10000)) 2 = - 9143 # 100.
Proof. repeat split. Qed.

Example trend_direction_ex :
  _determine_trend_direction 1 (2 # 10) = "neutral"
  /\ _determine_trend_direction (2 # 10) (8 # 10) = "strong_bull"
  /\ _determine_trend_direction (2 # 10) (6 # 10) = "moderate_bull"
  /\ _determine_trend_direction (- (1 # 10)) (4 # 10) = "weak_bear"
  /\ _determine_trend_direction 0 1 = "neutral".
Proof. repeat split. Qed.

Example date_columns_ex :
  date_columns_of ["股票代码"; "20250602"; "行业"; "20241231"; "20250601"]
  = ["20241231"; "20250601"; "20250602"].
Proof. reflexivity. Qed.

(** Entries of equal rtsi keep the order of the result set; entries with
    rtsi 0 or without rtsi are left out. *)
Example ranking_ex :
  get_rtsi_ranking ranked_results 50 None
  = Returned [("C", PStr "c", PFloat (8125 # 100), PStr "strong_bull");
              ("A", PStr "a", PFloat (50 # 1), PStr "weak_bull");
              ("D", PStr "未知", PFloat (100 # 2), PStr "neutral")]
  /\ get_rtsi_ranking ranked_results 50 (Some "bull") = get_rtsi_ranking ranked_results 50 None
  /\ get_rtsi_ranking ranked_results 50 (Some "up") = Returned [].
Proof. repeat split. Qed.

(** ** Rounding *)

Lemma round_half_even_comp (x y : Q) :
  (x == y)%Q -> round_half_even x = round_half_even y.
Proof.
  intros E. unfold round_half_even.
  rewrite (Qfloor_comp x y E).
  assert (E' : (x - inject_Z (Qfloor y) == y - inject_Z (Qfloor y))%Q)
    by (rewrite E; reflexivity).
  rewrite (Qcompare_comp _ _ E' (1 # 2) (1 # 2) (Qeq_refl _)).
  reflexivity.
Qed.

Lemma py_round_comp (x y : Q) (d : nat) :
  (x == y)%Q -> py_round x d = py_round y d.
Proof.
  intros E. unfold py_round. f_equal.
  apply round_half_even_comp. rewrite E. reflexivity.
Qed.

(** Rounding lands on the floor or just above it. *)
Lemma round_half_even_cases (x : Q) :
  round_half_even x = Qfloor x
  \/ (round_half_even x = Qfloor x + 1 /\ (inject_Z (Qfloor x) < x)%Q).
Proof.
  unfold round_half_even.
  destruct (Qcompare_spec (x - inject_Z (Qfloor x)) (1 # 2)) as [E | L | G].
  - destruct (Z.even (Qfloor x)); [left; reflexivity | right; split; [reflexivity | lra]].
  - left; reflexivity.
  - right; split; [reflexivity | lra].
Qed.

(** An integer bound on [x] is a bound on its rounding. *)
Lemma round_half_even_ge (x : Q) (k : Z) :
  (inject_Z k <= x)%Q -> k <= round_half_even x.
Proof.
  intros H.
  assert (F : k <= Qfloor x).
  { rewrite <- (Qfloor_Z k). apply Qfloor_resp_le, H. }
  destruct (round_half_even_cases x) as [-> | [-> _]]; lia.
Qed.

Lemma round_half_even_le (x : Q) (k : Z) :
  (x <= inject_Z k)%Q -> round_half_even x <= k.
Proof.
  intros H.
  assert (F : Qfloor x <= k).
  { rewrite <- (Qfloor_Z k). apply Qfloor_resp_le, H. }
  destruct (round_half_even_cases x) as [-> | [-> L]]; [exact F |].
  assert (S : (inject_Z (Qfloor x) < inject_Z k)%Q) by lra.
  rewrite <- Zlt_Qlt in S. lia.
Qed.

Lemma pow10_pos (d : nat) : 0 < 10 ^ Z.of_nat d.
Proof. apply Z.pow_pos_nonneg; lia. Qed.

Lemma py_round_bounds (x : Q) (d : nat) (lo hi : Z) :
  (inject_Z lo <= x <= inject_Z hi)%Q ->
  (inject_Z lo <= py_round x d <= inject_Z hi)%Q.
Proof.
  intros [L H]. unfold py_round.
  pose proof (pow10_pos d) as P.
  set (s := 10 ^ Z.of_nat d) in *.
  assert (Ps : (0 < inject_Z s)%Q) by (rewrite Zlt_Qlt in P; exact P).
  assert (A : lo * s <= round_half_even (x * inject_Z s)).
  { apply round_half_even_ge. rewrite inject_Z_mult. nra. }
  assert (B : round_half_even (x * inject_Z s) <= hi * s).
  { apply round_half_even_le. rewrite inject_Z_mult. nra. }
  unfold Qle; simpl. rewrite Z2Pos.id by exact P. split; lia.
Qed.

(** ** The score components *)

Lemma Qltb_true (a b : Q) : Qltb a b = true <-> (a < b)%Q.
Proof.
  unfold Qltb. destruct (Qlt_le_dec a b) as [L | G]; split; intros H;
    try reflexivity; try exact L; try discriminate.
  exfalso. apply (Qlt_not_le _ _ H G).
Qed.

Lemma Qltb_false (a b : Q) : Qltb a b = false <-> (b <= a)%Q.
Proof.
  unfold Qltb. destruct (Qlt_le_dec a b) as [L | G]; split; intros H;
    try reflexivity; try exact G; try discriminate.
  exfalso. apply (Qlt_not_le _ _ L H).
Qed.

Lemma Qgeb_true (a b : Q) : Qgeb a b = true <-> (b <= a)%Q.
Proof.
  unfold Qgeb. rewrite negb_true_iff. apply Qltb_false.
Qed.

Lemma Qgeb_false (a b : Q) : Qgeb a b = false <-> (a < b)%Q.
Proof.
  unfold Qgeb. rewrite negb_false_iff. apply Qltb_true.
Qed.

Lemma py_max_spec (a b : Q) : (py_max a b == Qmax a b)%Q.
Proof.
  unfold py_max. destruct (Qlt_le_dec a b) as [L | G].
  - symmetry. apply Q.max_r. apply Qlt_le_weak, L.
  - symmetry. apply Q.max_l, G.
Qed.

Lemma py_min_spec (a b : Q) : (py_min a b == Qmin b a)%Q.
Proof.
  unfold py_min. destruct (Qlt_le_dec b a) as [L | G].
  - symmetry. apply Q.min_l. apply Qlt_le_weak, L.
  - symmetry. apply Q.min_r, G.
Qed.

Lemma consistency_spec (reg : LinregressResult) :
  (consistency reg == spec_consistency reg)%Q.
Proof. unfold consistency, spec_consistency. simpl. reflexivity. Qed.

Lemma significance_spec (reg : LinregressResult) :
  (significance reg == spec_significance reg)%Q.
Proof.
  unfold significance, spec_significance, Qltb.
  destruct (Qlt_le_dec (p_value reg) (5 # 100)); [apply py_max_spec | reflexivity].
Qed.

Lemma amplitude_spec (reg : LinregressResult) (n : nat) :
  (amplitude reg n == spec_amplitude reg n)%Q.
Proof. unfold amplitude, spec_amplitude, rating_scale_max. apply py_min_spec. Qed.

Lemma rtsi_spec (reg : LinregressResult) (n : nat) :
  (rtsi reg n == spec_rtsi reg n)%Q.
Proof.
  unfold rtsi, spec_rtsi.
  rewrite (consistency_spec reg), (significance_spec reg), (amplitude_spec reg n).
  ring.
Qed.

Lemma consistency_bounds (reg : LinregressResult) :
  (-1 <= r_value reg <= 1)%Q -> (0 <= consistency reg <= 1)%Q.
Proof.
  intros [L H]. rewrite consistency_spec. unfold spec_consistency. split; nra.
Qed.

Lemma significance_bounds (reg : LinregressResult) :
  (0 <= p_value reg)%Q -> (0 <= significance reg <= 1)%Q.
Proof.
  intros P. unfold significance, Qltb, py_max.
  destruct (Qlt_le_dec (p_value reg) (5 # 100)); [| split; lra].
  destruct (Qlt_le_dec 0 (1 - p_value reg)); split; lra.
Qed.

Lemma amplitude_bounds (reg : LinregressResult) (n : nat) :
  (0 <= amplitude reg n <= 1)%Q.
Proof.
  unfold amplitude, py_min, rating_scale_max.
  set (a := (Qabs (slope reg) * inject_Z (Z.of_nat n) / 7)%Q).
  assert (A : (0 <= a)%Q).
  { unfold a. apply Qle_shift_div_l; [reflexivity |].
    rewrite Qmult_0_l. apply Qmult_le_0_compat; [apply Qabs_nonneg |].
    change 0%Q with (inject_Z 0). rewrite <- Zle_Qle. lia. }
  destruct (Qlt_le_dec 1 a); split; lra.
Qed.

Lemma rtsi_bounds (reg : LinregressResult) (n : nat) :
  (-1 <= r_value reg <= 1)%Q -> (0 <= p_value reg)%Q ->
  (0 <= rtsi reg n <= 100)%Q.
Proof.
  intros R P.
  pose proof (consistency_bounds reg R) as [? ?].
  pose proof (significance_bounds reg P) as [? ?].
  pose proof (amplitude_bounds reg n) as [? ?].
  unfold rtsi. split; lra.
Qed.

(** ** The scorer, branch by branch *)

Lemma encode_length (m : rating_map) (ratings : list cell) :
  (List.length (encode m ratings) <= List.length ratings)%nat.
Proof.
  induction ratings as [| c rest IH]; simpl; [lia |].
  destruct c as [s | z |]; try lia.
  destruct (dict_get m s) as [[score |] |]; simpl; lia.
Qed.

Section ScorerBranches.
Variable config : option rating_map.
Variable linregress : list Z -> list Z -> outcome LinregressResult.
Variable clock : nat -> Z.

Local Abbreviation calc := (calculate_rating_trend_strength_index config linregress clock).
Local Abbreviation MAP := (RATING_SCORE_MAP config).

Lemma calc_insufficient (stock_ratings : option (list cell)) (n0 : nat) :
  (valid_points MAP stock_ratings < 5)%nat ->
  calc stock_ratings n0
  = (_get_insufficient_data_result (Z.of_nat (valid_points MAP stock_ratings)), S n0).
Proof.
  intros H. unfold calculate_rating_trend_strength_index, bind, datetime_now, ret.
  destruct stock_ratings as [ratings |]; [| reflexivity].
  simpl in H.
  destruct ratings as [| c rest] eqn:E; [reflexivity |].
  rewrite <- E in *. replace (List.length ratings =? 0)%nat with false
    by (subst ratings; reflexivity).
  apply Nat.ltb_lt in H. simpl. rewrite H. reflexivity.
Qed.

Lemma calc_returned (ratings : list cell) (reg : LinregressResult) (n0 : nat) :
  (5 <= List.length (encode MAP ratings))%nat ->
  linregress (arange (List.length (encode MAP ratings))) (encode MAP ratings)
  = Returned reg ->
  calc (Some ratings) n0
  = ([("rtsi", PFloat (py_round (rtsi reg (List.length (encode MAP ratings))) 2));
      ("trend", PStr (_determine_trend_direction (slope reg) (significance reg)));
      ("confidence", PFloat (py_round (significance reg) 3));
      ("slope", PFloat (py_round (slope reg) 4));
      ("r_squared", PFloat (py_round (consistency reg) 3));
      ("recent_score", PInt (iloc_from_end (encode MAP ratings) 1));
      ("score_change_5d", _calculate_score_change (encode MAP ratings) 5);
      ("data_points", PInt (Z.of_nat (List.length (encode MAP ratings))));
      ("calculation_time", PStr (format_elapsed (clock (S n0) - clock n0)))],
     S (S n0)).
Proof.
  intros H R. unfold calculate_rating_trend_strength_index, bind, datetime_now, ret.
  pose proof (encode_length MAP ratings) as L.
  replace (List.length ratings =? 0)%nat with false
    by (symmetry; apply Nat.eqb_neq; lia).
  replace (List.length (encode MAP ratings) <? 5)%nat with false
    by (symmetry; apply Nat.ltb_ge; lia).
  replace (0 <? List.length (encode MAP ratings))%nat with true
    by (symmetry; apply Nat.ltb_lt; lia).
  rewrite R. reflexivity.
Qed.

Lemma calc_raised (ratings : list cell) (e : string) (n0 : nat) :
  (5 <= List.length (encode MAP ratings))%nat ->
  linregress (arange (List.length (encode MAP ratings))) (encode MAP ratings)
  = Raised e ->
  calc (Some ratings) n0
  = ([("rtsi", PInt 0);
      ("trend", PStr "calculation_error");
      ("confidence", PInt 0);
      ("error", PStr e);
      ("data_points", PInt (Z.of_nat (List.length (encode MAP ratings))));
      ("calculation_time", PStr (format_elapsed (clock (S n0) - clock n0)))],
     S (S n0)).
Proof.
  intros H R. unfold calculate_rating_trend_strength_index, bind, datetime_now, ret.
  pose proof (encode_length MAP ratings) as L.
  replace (List.length ratings =? 0)%nat with false
    by (symmetry; apply Nat.eqb_neq; lia).
  replace (List.length (encode MAP ratings) <? 5)%nat with false
    by (symmetry; apply Nat.ltb_ge; lia).
  rewrite R. reflexivity.
Qed.

End ScorerBranches.

(** ** Single-sequence scoring *)

(** C1: for every rating sequence with at least 5 valid points on which the
    regression returns, the reported [rtsi] is the specification's
    [100 * (0.4*consistency + 0.3*significance + 0.3*amplitude)] rounded to
    2 decimals, with consistency the squared correlation, significance
    [max(0, 1 - p)] below the 0.05 threshold, and amplitude
    [min(1, |slope| * n / 7)]; at and above the threshold the significance
    the code uses is exactly 0. *)
Theorem rtsi_is_weighted_score
  (config : option rating_map)
  (linregress : list Z -> list Z -> outcome LinregressResult)
  (clock : nat -> Z) (ratings : list cell) (reg : LinregressResult) (n0 : nat) :
  (5 <= valid_points (RATING_SCORE_MAP config) (Some ratings))%nat ->
  linregress (arange (valid_points (RATING_SCORE_MAP config) (Some ratings)))
             (encode (RATING_SCORE_MAP config) ratings) = Returned reg ->
  dict_get
    (fst (calculate_rating_trend_strength_index config linregress clock
            (Some ratings) n0)) "rtsi"
  = Some (PFloat
            (py_round
               (spec_rtsi reg (valid_points (RATING_SCORE_MAP config) (Some ratings)))
               2))
  /\ ((5 # 100 <= p_value reg)%Q -> significance reg = 0%Q).
Proof.
  intros H R. simpl in H, R. split.
  - rewrite (calc_returned config linregress clock ratings reg n0 H R).
    simpl. do 2 f_equal. apply py_round_comp, rtsi_spec.
  - intros P. unfold significance.
    apply Qltb_false in P. rewrite P. reflexivity.
Qed.

Lemma rtsi_is_weighted_score_witness :
  dict_get
    (fst (calculate_rating_trend_strength_index None linregress_perfect test_clock
            (Some test_ratings) 0%nat)) "rtsi"
  = Some (PFloat (py_round (spec_rtsi perfect_fit 7) 2))
  /\ ((5 # 100 <= p_value perfect_fit)%Q -> significance perfect_fit = 0%Q).
Proof.
  apply (rtsi_is_weighted_score None linregress_perfect test_clock test_ratings
           perfect_fit 0%nat).
  - vm_compute. lia.
  - reflexivity.
Defined.

(** C2: a null or empty input, and any input with fewer than 5 valid points,
    yields exactly the insufficient-data record: rtsi 0, trend
    [insufficient_data], confidence 0, slope 0, r_squared 0, no recent score,
    no 5-step change, and [data_points] the number of valid points (0 for a
    null or empty input); its [calculation_time] is the constant "0.001s". *)
Theorem insufficient_data_record
  (config : option rating_map)
  (linregress : list Z -> list Z -> outcome LinregressResult)
  (clock : nat -> Z) (stock_ratings : option (list cell)) (n0 : nat) :
  (valid_points (RATING_SCORE_MAP config) stock_ratings < 5)%nat ->
  fst (calculate_rating_trend_strength_index config linregress clock stock_ratings n0)
  = [("rtsi", PInt 0);
     ("trend", PStr "insufficient_data");
     ("confidence", PInt 0);
     ("slope", PInt 0);
     ("r_squared", PInt 0);
     ("recent_score", PNone);
     ("score_change_5d", PNone);
     ("data_points", PInt (Z.of_nat (valid_points (RATING_SCORE_MAP config) stock_ratings)));
     ("calculation_time", PStr "0.001s")]
  /\ valid_points (RATING_SCORE_MAP config) None = 0%nat
  /\ valid_points (RATING_SCORE_MAP config) (Some []) = 0%nat.
Proof.
  intros H. split; [| split; reflexivity].
  rewrite (calc_insufficient config linregress clock stock_ratings n0 H).
  reflexivity.
Qed.

Lemma insufficient_data_record_witness :
  fst (calculate_rating_trend_strength_index None linregress_perfect test_clock
         (Some [CStr "大多"; CStr "-"; CStr "中多"; CNaN; CStr "buy"]) 0%nat)
  = [("rtsi", PInt 0);
     ("trend", PStr "insufficient_data");
     ("confidence", PInt 0);
     ("slope", PInt 0);
     ("r_squared", PInt 0);
     ("recent_score", PNone);
     ("score_change_5d", PNone);
     ("data_points", PInt 2);
     ("calculation_time", PStr "0.001s")]
  /\ valid_points (RATING_SCORE_MAP None) None = 0%nat
  /\ valid_points (RATING_SCORE_MAP None) (Some []) = 0%nat.
Proof.
  apply (insufficient_data_record None linregress_perfect test_clock
           (Some [CStr "大多"; CStr "-"; CStr "中多"; CNaN; CStr "buy"]) 0%nat).
  vm_compute. lia.
Defined.

(** C4: with at least 5 valid points, an exception raised by the regression
    is not propagated: the scorer returns the record with trend
    [calculation_error], rtsi 0, confidence 0, the exception's message under
    [error], and [data_points] the number of valid points. *)
Theorem calculation_error_record
  (config : option rating_map)
  (linregress : list Z -> list Z -> outcome LinregressResult)
  (clock : nat -> Z) (ratings : list cell) (e : string) (n0 : nat) :
  (5 <= valid_points (RATING_SCORE_MAP config) (Some ratings))%nat ->
  linregress (arange (valid_points (RATING_SCORE_MAP config) (Some ratings)))
             (encode (RATING_SCORE_MAP config) ratings) = Raised e ->
  fst (calculate_rating_trend_strength_index config linregress clock (Some ratings) n0)
  = [("rtsi", PInt 0);
     ("trend", PStr "calculation_error");
     ("confidence", PInt 0);
     ("error", PStr e);
     ("data_points", PInt (Z.of_nat (valid_points (RATING_SCORE_MAP config) (Some ratings))));
     ("calculation_time", PStr (format_elapsed (clock (S n0) - clock n0)))].
Proof.
  intros H R. simpl in H, R.
  rewrite (calc_raised config linregress clock ratings e n0 H R).
  reflexivity.
Qed.

Lemma calculation_error_record_witness :
  fst (calculate_rating_trend_strength_index None linregress_raising test_clock
         (Some test_ratings) 0%nat)
  = [("rtsi", PInt 0);
     ("trend", PStr "calculation_error");
     ("confidence", PInt 0);
     ("error", PStr "Inputs must not be empty.");
     ("data_points", PInt 7);
     ("calculation_time", PStr (format_elapsed (test_clock 1 - test_clock 0)))].
Proof.
  apply (calculation_error_record None linregress_raising test_clock test_ratings
           "Inputs must not be empty." 0%nat).
  - vm_compute. lia.
  - reflexivity.
Defined.

(** For regression outputs that are numbers: with at least 5 valid points,
    a correlation coefficient in [-1, 1] and a p-value that is not negative,
    the reported rtsi lies in [0, 100], and the reported confidence and
    r_squared lie in [0, 1].  (A regression that answers NaN is outside
    this statement; see the scorer on outputs that may be NaN.) *)
Theorem result_within_bounds
  (config : option rating_map)
  (linregress : list Z -> list Z -> outcome LinregressResult)
  (clock : nat -> Z) (ratings : list cell) (reg : LinregressResult) (n0 : nat) :
  (5 <= valid_points (RATING_SCORE_MAP config) (Some ratings))%nat ->
  linregress (arange (valid_points (RATING_SCORE_MAP config) (Some ratings)))
             (encode (RATING_SCORE_MAP config) ratings) = Returned reg ->
  (-1 <= r_value reg <= 1)%Q ->
  (0 <= p_value reg)%Q ->
  exists rtsi_out confidence_out r_squared_out : Q,
    let result :=
      fst (calculate_rating_trend_strength_index config linregress clock
             (Some ratings) n0) in
    dict_get result "rtsi" = Some (PFloat rtsi_out)
    /\ dict_get result "confidence" = Some (PFloat confidence_out)
    /\ dict_get result "r_squared" = Some (PFloat r_squared_out)
    /\ (0 <= rtsi_out <= 100)%Q
    /\ (0 <= confidence_out <= 1)%Q
    /\ (0 <= r_squared_out <= 1)%Q.
Proof.
  intros H R Hr Hp. simpl in H, R.
  rewrite (calc_returned config linregress clock ratings reg n0 H R).
  do 3 eexists. cbv zeta. simpl fst.
  split; [reflexivity |]. split; [reflexivity |]. split; [reflexivity |].
  split; [| split].
  - apply (py_round_bounds _ 2 0 100), rtsi_bounds; assumption.
  - apply (py_round_bounds _ 3 0 1), significance_bounds; assumption.
  - apply (py_round_bounds _ 3 0 1), consistency_bounds; assumption.
Qed.

Lemma result_within_bounds_witness :
  exists rtsi_out confidence_out r_squared_out : Q,
    let result :=
      fst (calculate_rating_trend_strength_index None linregress_perfect test_clock
             (Some test_ratings) 0%nat) in
    dict_get result "rtsi" = Some (PFloat rtsi_out)
    /\ dict_get result "confidence" = Some (PFloat confidence_out)
    /\ dict_get result "r_squared" = Some (PFloat r_squared_out)
    /\ (0 <= rtsi_out <= 100)%Q
    /\ (0 <= confidence_out <= 1)%Q
    /\ (0 <= r_squared_out <= 1)%Q.
Proof.
  apply (result_within_bounds None linregress_perfect test_clock test_ratings
           perfect_fit 0%nat).
  - vm_compute. lia.
  - reflexivity.
  - split; vm_compute; discriminate.
  - vm_compute. discriminate.
Defined.

(** C3: [classify_rtsi_by_value] is a total function of its input, with
    closed-open brackets descending from 75: strong_bull from 75 up,
    moderate_bull on [60, 75), weak_bull on [50, 60), neutral on [40, 50),
    weak_bear on [30, 40), moderate_bear on [20, 30) and strong_bear below
    20; inputs below 0 are strong_bear and inputs above 100 strong_bull. *)
Theorem classify_rtsi_by_value_brackets (v : Q) :
  ((75 <= v)%Q -> classify_rtsi_by_value v = "strong_bull")
  /\ ((60 <= v < 75)%Q -> classify_rtsi_by_value v = "moderate_bull")
  /\ ((50 <= v < 60)%Q -> classify_rtsi_by_value v = "weak_bull")
  /\ ((40 <= v < 50)%Q -> classify_rtsi_by_value v = "neutral")
  /\ ((30 <= v < 40)%Q -> classify_rtsi_by_value v = "weak_bear")
  /\ ((20 <= v < 30)%Q -> classify_rtsi_by_value v = "moderate_bear")
  /\ ((v < 20)%Q -> classify_rtsi_by_value v = "strong_bear")
  /\ ((v < 0)%Q -> classify_rtsi_by_value v = "strong_bear")
  /\ ((100 < v)%Q -> classify_rtsi_by_value v = "strong_bull").
Proof.
  unfold classify_rtsi_by_value.
  destruct (Qgeb v 75) eqn:E75;
    [apply Qgeb_true in E75 | apply Qgeb_false in E75];
    (destruct (Qgeb v 60) eqn:E60;
       [apply Qgeb_true in E60 | apply Qgeb_false in E60]);
    (destruct (Qgeb v 50) eqn:E50;
       [apply Qgeb_true in E50 | apply Qgeb_false in E50]);
    (destruct (Qgeb v 40) eqn:E40;
       [apply Qgeb_true in E40 | apply Qgeb_false in E40]);
    (destruct (Qgeb v 30) eqn:E30;
       [apply Qgeb_true in E30 | apply Qgeb_false in E30]);
    (destruct (Qgeb v 20) eqn:E20;
       [apply Qgeb_true in E20 | apply Qgeb_false in E20]);
    repeat split; intros; try reflexivity; exfalso; lra.
Qed.

Lemma classify_rtsi_by_value_brackets_witness :
  classify_rtsi_by_value 75 = "strong_bull"
  /\ classify_rtsi_by_value (5999 # 100) = "weak_bull"
  /\ classify_rtsi_by_value (-3) = "strong_bear"
  /\ classify_rtsi_by_value 250 = "strong_bull".
Proof.
  split; [| split; [| split]].
  - apply (proj1 (classify_rtsi_by_value_brackets 75)).
    vm_compute. discriminate.
  - apply (proj1 (proj2 (proj2 (classify_rtsi_by_value_brackets (5999 # 100))))).
    split; vm_compute; [discriminate | reflexivity].
  - apply (proj1 (proj2 (proj2 (proj2 (proj2 (proj2 (proj2 (proj2
             (classify_rtsi_by_value_brackets (-3)))))))))).
    vm_compute. reflexivity.
  - apply (proj2 (proj2 (proj2 (proj2 (proj2 (proj2 (proj2 (proj2
             (classify_rtsi_by_value_brackets 250))))))))).
    vm_compute. reflexivity.
Defined.

(** The claim C10 as it is stated fails: the record carries the measured
    elapsed time, so two calls on the same sequence return different records
    when the clock advances by different amounts. *)
Lemma rescoring_changes_calculation_time :
  fst (calculate_rating_trend_strength_index None linregress_perfect test_clock
         (Some test_ratings) 0%nat)
  <> fst (calculate_rating_trend_strength_index None linregress_perfect test_clock
            (Some test_ratings) 2%nat).
Proof. vm_compute. discriminate. Qed.

(** C10 (amended): two calls on the same sequence return records that agree
    on every field except [calculation_time], and that are identical when
    the two measured elapsed times are equal. *)
Theorem rescoring_is_deterministic_up_to_time
  (config : option rating_map)
  (linregress : list Z -> list Z -> outcome LinregressResult)
  (clock : nat -> Z) (stock_ratings : option (list cell)) (n1 n2 : nat) :
  dict_without
    (fst (calculate_rating_trend_strength_index config linregress clock
            stock_ratings n1)) "calculation_time"
  = dict_without
      (fst (calculate_rating_trend_strength_index config linregress clock
              stock_ratings n2)) "calculation_time"
  /\ (clock (S n1) - clock n1 = clock (S n2) - clock n2 ->
      fst (calculate_rating_trend_strength_index config linregress clock
             stock_ratings n1)
      = fst (calculate_rating_trend_strength_index config linregress clock
               stock_ratings n2)).
Proof.
  destruct (Nat.lt_ge_cases (valid_points (RATING_SCORE_MAP config) stock_ratings) 5)
    as [Short | Long].
  - rewrite !(calc_insufficient config linregress clock stock_ratings _ Short).
    split; reflexivity.
  - destruct stock_ratings as [ratings |]; [| simpl in Long; lia].
    simpl in Long.
    destruct (linregress (arange (List.length (encode (RATING_SCORE_MAP config) ratings)))
                (encode (RATING_SCORE_MAP config) ratings)) as [reg | e] eqn:R.
    + rewrite !(calc_returned config linregress clock ratings reg _ Long R).
      split; [reflexivity | intros ->; reflexivity].
    + rewrite !(calc_raised config linregress clock ratings e _ Long R).
      split; [reflexivity | intros ->; reflexivity].
Qed.

Lemma rescoring_is_deterministic_up_to_time_witness :
  dict_without
    (fst (calculate_rating_trend_strength_index None linregress_perfect test_clock
            (Some test_ratings) 0%nat)) "calculation_time"
  = dict_without
      (fst (calculate_rating_trend_strength_index None linregress_perfect test_clock
              (Some test_ratings) 2%nat)) "calculation_time".
Proof.
  apply (proj1 (rescoring_is_deterministic_up_to_time None linregress_perfect
                  test_clock (Some test_ratings) 0%nat 2%nat)).
Defined.

(** ** Sorting the date columns *)



Lemma insert_string_perm (s : string) (l : list string) :
  Permutation (insert_string s l) (s :: l).
Proof.
  induction l as [| t rest IH]; simpl; [reflexivity |].
  destruct (String.leb s t); [reflexivity |].
  rewrite IH. apply perm_swap.
Qed.

Lemma sort_strings_perm (l : list string) : Permutation (sort_strings l) l.
Proof.
  induction l as [| s rest IH]; simpl; [reflexivity |].
  rewrite insert_string_perm. constructor. exact IH.
Qed.



(** ** The batch engine *)

Lemma dict_keys_set_new {V} (d : dict V) (k : string) (v : V) :
  ~ In k (dict_keys d) -> dict_keys (dict_set d k v) = (dict_keys d ++ [k])%list.
Proof.
  induction d as [| [k' v'] d IH]; simpl; intros N; [reflexivity |].
  destruct (String.eqb_spec k' k) as [E | D].
  - exfalso. apply N. left. exact E.
  - simpl. f_equal. apply IH. intros I. apply N. right. exact I.
Qed.

Lemma date_columns_perm (cols : list string) :
  Permutation (date_columns_of cols) (filter (String.prefix "202") cols).
Proof. apply sort_strings_perm. Qed.

Lemma date_columns_nonempty (cols : list string) :
  (exists c, In c cols /\ String.prefix "202" c = true) ->
  (List.length (date_columns_of cols) =? 0)%nat = false.
Proof.
  intros (c & I & P). apply Nat.eqb_neq.
  rewrite (Permutation_length (date_columns_perm cols)).
  assert (F : In c (filter (String.prefix "202") cols)) by (apply filter_In; auto).
  destruct (filter (String.prefix "202") cols); [contradiction | simpl; lia].
Qed.


Section BatchFacts.
Variable config : option rating_map.
Variable linregress : list Z -> list Z -> outcome LinregressResult.
Variable clock : nat -> Z.

(** While identifiers are new, the loop appends one key per row, in row
    order. *)
Lemma batch_loop_keys (cols dcs : list string) (todo : list (Z * list cell)) :
  forall (results : dict (dict pyval)) (n : nat),
    NoDup (dict_keys results ++ map (stock_code_of cols) todo)%list ->
    dict_keys (fst (batch_loop config linregress clock cols dcs todo results n))
    = (dict_keys results ++ map (stock_code_of cols) todo)%list.
Proof.
  induction todo as [| row rest IH]; intros results n D.
  - simpl. rewrite app_nil_r. reflexivity.
  - cbn [batch_loop]. unfold bind at 1.
    destruct (calculate_rating_trend_strength_index config linregress clock
                (Some (map (fun c => row_get cols (snd row) c CNaN) dcs)) n)
      as [rtsi_result n'].
    cbn [map] in D.
    assert (New : ~ In (stock_code_of cols row) (dict_keys results)).
    { intros I. apply NoDup_remove_2 in D. apply D.
      apply in_or_app. left. exact I. }
    rewrite IH.
    + rewrite dict_keys_set_new by exact New.
      rewrite <- app_assoc. reflexivity.
    + rewrite dict_keys_set_new by exact New.
      rewrite <- app_assoc. exact D.
Qed.

End BatchFacts.

(** The claim C5 as it is stated fails: results are stored under the row's
    identifier, so two rows with one identifier leave one entry. *)
Lemma batch_merges_rows_with_one_identifier :
  exists results,
    fst (batch_calculate_rtsi None linregress_perfect test_clock
           (Some duplicate_code_table) 0%nat) = Returned results
    /\ List.length results = 1%nat
    /\ List.length (rows duplicate_code_table) = 2%nat
    /\ (exists c, In c (columns duplicate_code_table) /\ String.prefix "202" c = true).
Proof.
  eexists. split; [vm_compute; reflexivity |].
  split; [reflexivity |]. split; [reflexivity |].
  exists "20250601". split; [right; left |]; reflexivity.
Qed.

(** C5 (amended): for every table with at least one column whose name starts
    with [202] and whose rows have pairwise distinct identifiers, a batch
    whose last clock read differs from its first returns a result set with
    exactly one entry per input row, keyed by the rows' identifiers in row
    order; rows that fail or lack data are stored like the others. *)
Theorem batch_keeps_one_entry_per_row
  (config : option rating_map)
  (linregress : list Z -> list Z -> outcome LinregressResult)
  (clock : nat -> Z) (df : DataFrame) (n0 : nat) :
  (exists c, In c (columns df) /\ String.prefix "202" c = true) ->
  NoDup (map (stock_code_of (columns df)) (rows df)) ->
  clock (pred (snd (batch_calculate_rtsi config linregress clock (Some df) n0)))
  <> clock n0 ->
  exists results,
    fst (batch_calculate_rtsi config linregress clock (Some df) n0) = Returned results
    /\ dict_keys results = map (stock_code_of (columns df)) (rows df)
    /\ List.length results = List.length (rows df).
Proof.
  intros Dated Distinct Advanced.
  unfold batch_calculate_rtsi in *.
  destruct (rows df) as [| row rest] eqn:Rows.
  - exists []. repeat split.
  - cbn [List.length Nat.eqb] in *. unfold bind, datetime_now, ret in *.
    rewrite (date_columns_nonempty _ Dated) in *.
    pose proof (batch_loop_keys config linregress clock (columns df)
                  (date_columns_of (columns df)) (row :: rest) [] (S n0) Distinct)
      as Keys.
    destruct (batch_loop config linregress clock (columns df)
                (date_columns_of (columns df)) (row :: rest) [] (S n0))
      as [results n_end].
    cbn [fst snd] in *.
    destruct (clock n_end - clock n0 =? 0) eqn:Z0.
    + exfalso. apply Z.eqb_eq in Z0. cbn [snd pred] in Advanced. lia.
    + exists results. split; [reflexivity |]. split; [exact Keys |].
      apply (f_equal (@List.length string)) in Keys.
      unfold dict_keys in Keys. cbn [map app] in Keys.
      rewrite length_map in Keys. cbn [List.length] in *.
      rewrite length_map in Keys. exact Keys.
Qed.

Lemma batch_keeps_one_entry_per_row_witness :
  exists results,
    fst (batch_calculate_rtsi None linregress_perfect test_clock (Some test_data) 0%nat)
    = Returned results
    /\ dict_keys results = map (stock_code_of (columns test_data)) (rows test_data)
    /\ List.length results = List.length (rows test_data).
Proof.
  apply (batch_keeps_one_entry_per_row None linregress_perfect test_clock test_data
           0%nat).
  - exists "20250601". split; [vm_compute; tauto | reflexivity].
  - vm_compute. repeat constructor; simpl; intuition discriminate.
  - vm_compute. discriminate.
Defined.



(** ** The ranking *)

Section StableSortFacts.
Context {A : Type} (key : A -> Q).

Lemma insert_desc_perm (x : A) (l : list A) :
  Permutation (insert_desc key x l) (x :: l).
Proof.
  induction l as [| y rest IH]; simpl; [reflexivity |].
  destruct (Qltb (key x) (key y)); [| reflexivity].
  rewrite IH. apply perm_swap.
Qed.

Lemma sort_desc_perm (l : list A) : Permutation (sort_desc key l) l.
Proof.
  induction l as [| x rest IH]; simpl; [reflexivity |].
  rewrite insert_desc_perm. constructor. exact IH.
Qed.

Lemma insert_desc_sorted (x : A) (l : list A) :
  StronglySorted (fun a b => (key b <= key a)%Q) l ->
  StronglySorted (fun a b => (key b <= key a)%Q) (insert_desc key x l).
Proof.
  induction l as [| y rest IH]; simpl; intros S.
  - repeat constructor.
  - inversion S as [| ? ? Srest Fy]; subst.
    destruct (Qltb (key x) (key y)) eqn:E.
    + apply Qltb_true in E. constructor; [apply IH, Srest |].
      eapply Permutation_Forall; [symmetry; apply insert_desc_perm |].
      constructor; [apply Qlt_le_weak, E | exact Fy].
    + apply Qltb_false in E. constructor; [exact S |].
      constructor; [exact E |].
      eapply Forall_impl; [| exact Fy].
      intros z Hz. simpl in Hz. eapply Qle_trans; eassumption.
Qed.

Lemma sort_desc_sorted (l : list A) :
  StronglySorted (fun a b => (key b <= key a)%Q) (sort_desc key l).
Proof.
  induction l as [| x rest IH]; simpl; [constructor |].
  apply insert_desc_sorted, IH.
Qed.

(** Stability: among the elements of one key, the order is the input's. *)
Lemma insert_desc_stable (k : Q) (x : A) (l : list A) :
  filter (fun a => Qeq_bool (key a) k) (insert_desc key x l)
  = filter (fun a => Qeq_bool (key a) k) (x :: l).
Proof.
  induction l as [| y rest IH]; [reflexivity |].
  cbn [insert_desc].
  destruct (Qltb (key x) (key y)) eqn:E; [| reflexivity].
  apply Qltb_true in E.
  cbn [filter]. rewrite IH. cbn [filter].
  destruct (Qeq_bool (key y) k) eqn:Ey; destruct (Qeq_bool (key x) k) eqn:Ex;
    try reflexivity.
  apply Qeq_bool_eq in Ey, Ex. exfalso. lra.
Qed.

Lemma sort_desc_stable (k : Q) (l : list A) :
  filter (fun a => Qeq_bool (key a) k) (sort_desc key l)
  = filter (fun a => Qeq_bool (key a) k) l.
Proof.
  induction l as [| x rest IH]; [reflexivity |].
  cbn [sort_desc fold_right]. fold (sort_desc key rest).
  rewrite insert_desc_stable. cbn [filter]. rewrite IH. reflexivity.
Qed.

End StableSortFacts.

Lemma sort_desc_map {A B} (key : B -> Q) (f : A -> B) (l : list A) :
  sort_desc key (map f l) = map f (sort_desc (fun a => key (f a)) l).
Proof.
  induction l as [| x rest IH]; [reflexivity |].
  cbn [map sort_desc fold_right].
  fold (sort_desc key (map f rest)). fold (sort_desc (fun a => key (f a)) rest).
  rewrite IH. generalize (sort_desc (fun a => key (f a)) rest) as s.
  induction s as [| y s IHs]; [reflexivity |].
  cbn [map insert_desc].
  destruct (Qltb (key (f x)) (key (f y))); [| reflexivity].
  cbn [map]. rewrite IHs. reflexivity.
Qed.

Lemma py_gt_zero_numeric (result : dict pyval) :
  rtsi_is_numeric result = true ->
  py_gt_zero (dict_get_default result "rtsi" (PInt 0))
  = Returned (has_positive_rtsi result).
Proof.
  unfold rtsi_is_numeric, has_positive_rtsi, rtsi_number, dict_get_default.
  destruct (dict_get result "rtsi") as [[| z | q | | s] |]; intros N;
    try discriminate; try reflexivity.
  simpl. f_equal. unfold Qgtb.
  destruct (Z.ltb_spec 0 z) as [L | G]; symmetry.
  - apply Qltb_true. rewrite Zlt_Qlt in L. exact L.
  - apply Qltb_false. rewrite Zle_Qle in G. exact G.
Qed.

Lemma valid_results_unfiltered (rtsi_results : dict (dict pyval)) :
  Forall (fun kv => rtsi_is_numeric (snd kv) = true) rtsi_results ->
  valid_results_of rtsi_results None
  = Returned (map (fun kv => rank_row (fst kv) (snd kv))
                (filter (fun kv => has_positive_rtsi (snd kv)) rtsi_results)).
Proof.
  induction 1 as [| [code result] rest N _ IH]; [reflexivity |].
  cbn [valid_results_of filter snd fst]. simpl in N.
  rewrite (py_gt_zero_numeric result N).
  destruct (has_positive_rtsi result); [| exact IH].
  cbn [trend_filtered_out]. rewrite IH. reflexivity.
Qed.

(** C6: for every result set whose rtsi fields are numbers, every limit
    [top_n >= 0] and no trend filter, the ranking is the first [top_n]
    entries of the entries with rtsi > 0 arranged in non-increasing order of
    rtsi, entries of equal rtsi keeping the order of the result set; it has
    at most [top_n] entries, each the (identifier, name, rtsi, trend) tuple
    of its entry. *)
Theorem ranking_is_top_of_stable_descending_order
  (rtsi_results : dict (dict pyval)) (top_n : Z) :
  Forall (fun kv => rtsi_is_numeric (snd kv) = true) rtsi_results ->
  0 <= top_n ->
  exists sorted : list (string * dict pyval),
    get_rtsi_ranking rtsi_results top_n None
    = Returned (map ranking_entry (firstn (Z.to_nat top_n) sorted))
    /\ Permutation sorted
         (filter (fun kv => has_positive_rtsi (snd kv)) rtsi_results)
    /\ StronglySorted
         (fun a b => (rtsi_number (snd b) <= rtsi_number (snd a))%Q) sorted
    /\ (forall k : Q,
           filter (fun kv => Qeq_bool (rtsi_number (snd kv)) k) sorted
           = filter (fun kv => Qeq_bool (rtsi_number (snd kv)) k)
               (filter (fun kv => has_positive_rtsi (snd kv)) rtsi_results))
    /\ (List.length (firstn (Z.to_nat top_n) sorted) <= Z.to_nat top_n)%nat.
Proof.
  intros Numeric Limit.
  exists (sort_desc (fun kv => rtsi_number (snd kv))
            (filter (fun kv => has_positive_rtsi (snd kv)) rtsi_results)).
  split; [| split; [| split; [| split]]].
  - unfold get_rtsi_ranking.
    destruct rtsi_results as [| entry rest] eqn:E.
    + destruct (Z.to_nat top_n); reflexivity.
    + rewrite <- E in *. rewrite (valid_results_unfiltered _ Numeric).
      unfold slice_to. replace (0 <=? top_n) with true
        by (symmetry; apply Z.leb_le; exact Limit).
      f_equal.
      rewrite (sort_desc_map (fun x => number_of (rank_rtsi x))
                 (fun kv => rank_row (fst kv) (snd kv))).
      rewrite firstn_map, map_map. reflexivity.
  - apply sort_desc_perm.
  - apply (sort_desc_sorted (fun kv : string * dict pyval => rtsi_number (snd kv))).
  - intros k.
    apply (sort_desc_stable (fun kv : string * dict pyval => rtsi_number (snd kv))).
  - apply firstn_le_length.
Qed.

Lemma ranking_is_top_of_stable_descending_order_witness :
  exists sorted : list (string * dict pyval),
    get_rtsi_ranking ranked_results 2 None
    = Returned (map ranking_entry (firstn (Z.to_nat 2) sorted))
    /\ Permutation sorted
         (filter (fun kv => has_positive_rtsi (snd kv)) ranked_results)
    /\ StronglySorted
         (fun a b => (rtsi_number (snd b) <= rtsi_number (snd a))%Q) sorted
    /\ (forall k : Q,
           filter (fun kv => Qeq_bool (rtsi_number (snd kv)) k) sorted
           = filter (fun kv => Qeq_bool (rtsi_number (snd kv)) k)
               (filter (fun kv => has_positive_rtsi (snd kv)) ranked_results))
    /\ (List.length (firstn (Z.to_nat 2) sorted) <= Z.to_nat 2)%nat.
Proof.
  apply (ranking_is_top_of_stable_descending_order ranked_results 2).
  - repeat constructor.
  - lia.
Defined.

(** ** The calculator object *)

(** [calculate] counts the call and scores with the module-level function:
    neither the map nor the threshold stored in the object is read. *)
Lemma calculate_does_not_read_configuration
  (config : option rating_map)
  (linregress : list Z -> list Z -> outcome LinregressResult)
  (clock : nat -> Z) (self : RTSICalculator)
  (stock_ratings : option (list cell)) (n0 : nat) :
  snd (fst (RTSICalculator_calculate config linregress clock self stock_ratings n0))
  = fst (calculate_rating_trend_strength_index config linregress clock stock_ratings n0)
  /\ calculation_count
       (fst (fst (RTSICalculator_calculate config linregress clock self
                    stock_ratings n0)))
     = calculation_count self + 1.
Proof.
  unfold RTSICalculator_calculate, bind, ret.
  destruct (calculate_rating_trend_strength_index config linregress clock
              stock_ratings n0) as [result n'].
  split; reflexivity.
Qed.

(** C8 (the code departs from the claim): a calculator built with its own
    rating map and [min_data_points = 3] keeps both, yet [calculate] encodes
    with the module map and applies the threshold 5.  A sequence of six
    symbols of the custom map is reported as having no valid point; three
    valid points are reported insufficient under the threshold 3; and seven
    valid points are scored under the threshold 10. *)
Theorem calculator_ignores_its_configuration :
  calc_rating_map (RTSICalculator_init None (Some custom_rating_map) 3)
  = custom_rating_map
  /\ min_data_points (RTSICalculator_init None (Some custom_rating_map) 3) = 3
  /\ valid_points custom_rating_map (Some custom_ratings) = 6%nat
  /\ snd (fst (RTSICalculator_calculate None linregress_perfect test_clock
                 (RTSICalculator_init None (Some custom_rating_map) 3)
                 (Some custom_ratings) 0%nat))
     = _get_insufficient_data_result 0
  /\ valid_points DEFAULT_RATING_SCORE_MAP (Some three_ratings) = 3%nat
  /\ snd (fst (RTSICalculator_calculate None linregress_perfect test_clock
                 (RTSICalculator_init None None 3) (Some three_ratings) 0%nat))
     = _get_insufficient_data_result 3
  /\ valid_points DEFAULT_RATING_SCORE_MAP (Some test_ratings) = 7%nat
  /\ dict_get
       (snd (fst (RTSICalculator_calculate None linregress_perfect test_clock
                    (RTSICalculator_init None None 10) (Some test_ratings) 0%nat)))
       "trend"
     = Some (PStr "strong_bull").
Proof. repeat split. Qed.

(** * Further properties of the code *)

(** ** The rating encoder *)

Lemma encode_app (m : rating_map) (a b : list cell) :
  encode m (a ++ b) = (encode m a ++ encode m b)%list.
Proof.
  induction a as [| c rest IH]; [reflexivity |].
  cbn [app encode]. destruct c as [s | z |]; try exact IH.
  destruct (dict_get m s) as [[score |] |]; try exact IH.
  cbn [app]. rewrite IH. reflexivity.
Qed.

(** X1: the encoder works cell by cell and keeps the order: the scores of a
    concatenation are the scores of its parts, one after the other; a
    missing cell, a number, a symbol that is no key of the map and a symbol
    mapped to [None] contribute nothing, wherever they stand. *)
Theorem encode_is_cellwise_and_drops_unmapped
  (m : rating_map) (a b : list cell) (c : cell) :
  encode m (a ++ b) = (encode m a ++ encode m b)%list
  /\ encode m (a ++ c :: b) = (encode m a ++ encode m [c] ++ encode m b)%list
  /\ (encode m [c] = [] -> encode m (a ++ c :: b) = encode m (a ++ b))
  /\ encode m [CNaN] = []
  /\ (forall z, encode m [CInt z] = [])
  /\ (forall s, dict_get m s = None -> encode m [CStr s] = [])
  /\ (forall s, dict_get m s = Some None -> encode m [CStr s] = [])
  /\ (forall s score, dict_get m s = Some (Some score) -> encode m [CStr s] = [score]).
Proof.
  assert (Mid : encode m (a ++ c :: b) = (encode m a ++ encode m [c] ++ encode m b)%list).
  { change (c :: b) with ([c] ++ b)%list. rewrite !encode_app. reflexivity. }
  split; [apply encode_app |]. split; [exact Mid |].
  split; [intros E; rewrite Mid, E, encode_app; reflexivity |].
  split; [reflexivity |]. split; [reflexivity |].
  split; [| split]; intros; cbn [encode]; rewrite H; reflexivity.
Qed.

Lemma dict_get_in_values {V} (d : dict V) (k : string) (v : V) :
  dict_get d k = Some v -> In v (map snd d).
Proof.
  induction d as [| [k' v'] d IH]; cbn [dict_get map snd]; [discriminate |].
  destruct (String.eqb k' k); intros E.
  - injection E as <-. left. reflexivity.
  - right. apply IH, E.
Qed.

Lemma encode_default_range (ratings : list cell) :
  Forall (fun z => 0 <= z <= 7) (encode DEFAULT_RATING_SCORE_MAP ratings).
Proof.
  induction ratings as [| c rest IH]; [constructor |].
  cbn [encode]. destruct c as [s | z |]; try exact IH.
  destruct (dict_get DEFAULT_RATING_SCORE_MAP s) as [[score |] |] eqn:E; try exact IH.
  constructor; [| exact IH].
  apply dict_get_in_values in E. cbn in E.
  repeat (destruct E as [E | E]; [try discriminate; injection E as <-; lia |]).
  contradiction.
Qed.

Lemma iloc_from_end_in (scores : list Z) (k : nat) :
  (1 <= k <= List.length scores)%nat -> In (iloc_from_end scores k) scores.
Proof.
  intros H. unfold iloc_from_end. apply nth_In. lia.
Qed.

(** X2: with the built-in map, a scored record reports a [recent_score]
    between 0 and 7, the last valid score; its [score_change_5d] is absent
    exactly when there are 5 valid points, and with 6 or more it is the last
    valid score minus the valid score five positions before it, a number
    between -7 and 7. *)
Theorem default_map_scores_are_on_the_scale
  (linregress : list Z -> list Z -> outcome LinregressResult)
  (clock : nat -> Z) (ratings : list cell) (reg : LinregressResult) (n0 : nat) :
  (5 <= valid_points DEFAULT_RATING_SCORE_MAP (Some ratings))%nat ->
  linregress (arange (valid_points DEFAULT_RATING_SCORE_MAP (Some ratings)))
             (encode DEFAULT_RATING_SCORE_MAP ratings) = Returned reg ->
  dict_get
    (fst (calculate_rating_trend_strength_index None linregress clock
            (Some ratings) n0)) "recent_score"
  = Some (PInt (last (encode DEFAULT_RATING_SCORE_MAP ratings) 0))
  /\ 0 <= last (encode DEFAULT_RATING_SCORE_MAP ratings) 0 <= 7
  /\ ((valid_points DEFAULT_RATING_SCORE_MAP (Some ratings) = 5)%nat ->
      dict_get
        (fst (calculate_rating_trend_strength_index None linregress clock
                (Some ratings) n0)) "score_change_5d" = Some PNone)
  /\ ((6 <= valid_points DEFAULT_RATING_SCORE_MAP (Some ratings))%nat ->
      dict_get
        (fst (calculate_rating_trend_strength_index None linregress clock
                (Some ratings) n0)) "score_change_5d"
      = Some (PFloat
                (inject_Z
                   (last (encode DEFAULT_RATING_SCORE_MAP ratings) 0
                    - nth (valid_points DEFAULT_RATING_SCORE_MAP (Some ratings) - 6)
                          (encode DEFAULT_RATING_SCORE_MAP ratings) 0)))
      /\ -7 <= last (encode DEFAULT_RATING_SCORE_MAP ratings) 0
               - nth (valid_points DEFAULT_RATING_SCORE_MAP (Some ratings) - 6)
                     (encode DEFAULT_RATING_SCORE_MAP ratings) 0
            <= 7).
Proof.
  intros H R. cbn [valid_points] in *.
  rewrite (calc_returned None linregress clock ratings reg n0 H R).
  change (RATING_SCORE_MAP None) with DEFAULT_RATING_SCORE_MAP.
  set (scores := encode DEFAULT_RATING_SCORE_MAP ratings) in *.
  pose proof (encode_default_range ratings) as Range. fold scores in Range.
  rewrite Forall_forall in Range.
  assert (Last : iloc_from_end scores 1 = last scores 0).
  { unfold iloc_from_end.
    assert (N : scores <> []) by (intros E; rewrite E in H; simpl in H; lia).
    destruct (exists_last N) as (front & x & E). rewrite E.
    rewrite last_last, length_app. cbn [List.length].
    replace (List.length front + 1 - 1)%nat with (List.length front) by lia.
    rewrite nth_middle. reflexivity. }
  cbn [fst]. split; [| split; [| split]].
  - cbn [dict_get String.eqb Ascii.eqb Bool.eqb]. rewrite Last. reflexivity.
  - rewrite <- Last. apply Range, iloc_from_end_in. lia.
  - intros Five. simpl. unfold _calculate_score_change. rewrite Five. reflexivity.
  - intros Six. rewrite <- Last.
    change (nth (List.length scores - 6) scores 0) with (iloc_from_end scores 6).
    split.
    + simpl. unfold _calculate_score_change.
      replace (List.length scores <? 5 + 1)%nat with false
        by (symmetry; apply Nat.ltb_ge; lia).
      reflexivity.
    + pose proof (Range _ (iloc_from_end_in scores 1 ltac:(lia))).
      pose proof (Range _ (iloc_from_end_in scores 6 ltac:(lia))).
      lia.
Qed.

Lemma default_map_scores_are_on_the_scale_witness :
  dict_get
    (fst (calculate_rating_trend_strength_index None linregress_perfect test_clock
            (Some test_ratings) 0%nat)) "recent_score"
  = Some (PInt (last (encode DEFAULT_RATING_SCORE_MAP test_ratings) 0))
  /\ 0 <= last (encode DEFAULT_RATING_SCORE_MAP test_ratings) 0 <= 7
  /\ ((valid_points DEFAULT_RATING_SCORE_MAP (Some test_ratings) = 5)%nat ->
      dict_get
        (fst (calculate_rating_trend_strength_index None linregress_perfect test_clock
                (Some test_ratings) 0%nat)) "score_change_5d" = Some PNone)
  /\ ((6 <= valid_points DEFAULT_RATING_SCORE_MAP (Some test_ratings))%nat ->
      dict_get
        (fst (calculate_rating_trend_strength_index None linregress_perfect test_clock
                (Some test_ratings) 0%nat)) "score_change_5d"
      = Some (PFloat
                (inject_Z
                   (last (encode DEFAULT_RATING_SCORE_MAP test_ratings) 0
                    - nth (valid_points DEFAULT_RATING_SCORE_MAP (Some test_ratings) - 6)
                          (encode DEFAULT_RATING_SCORE_MAP test_ratings) 0)))
      /\ -7 <= last (encode DEFAULT_RATING_SCORE_MAP test_ratings) 0
               - nth (valid_points DEFAULT_RATING_SCORE_MAP (Some test_ratings) - 6)
                     (encode DEFAULT_RATING_SCORE_MAP test_ratings) 0
            <= 7).
Proof.
  apply (default_map_scores_are_on_the_scale linregress_perfect test_clock
           test_ratings perfect_fit 0%nat).
  - vm_compute. lia.
  - reflexivity.
Defined.

(** ** More on single-sequence scoring *)

Lemma round_half_even_mono (x y : Q) :
  (x <= y)%Q -> round_half_even x <= round_half_even y.
Proof.
  intros L.
  pose proof (Qfloor_resp_le x y L) as F.
  destruct (Z.eq_dec (Qfloor x) (Qfloor y)) as [E | N].
  - unfold round_half_even. rewrite <- E.
    destruct (Qcompare_spec (x - inject_Z (Qfloor x)) (1 # 2)) as [Ex | Lx | Gx];
      destruct (Qcompare_spec (y - inject_Z (Qfloor x)) (1 # 2)) as [Ey | Ly | Gy];
      try lia; try (exfalso; lra);
      destruct (Z.even (Qfloor x)); lia.
  - assert (Up : round_half_even x <= Qfloor x + 1)
      by (destruct (round_half_even_cases x) as [-> | [-> _]]; lia).
    assert (Down : Qfloor y <= round_half_even y)
      by (destruct (round_half_even_cases y) as [-> | [-> _]]; lia).
    lia.
Qed.

Lemma py_round_mono (x y : Q) (d : nat) :
  (x <= y)%Q -> (py_round x d <= py_round y d)%Q.
Proof.
  intros L. unfold py_round. pose proof (pow10_pos d) as P.
  assert (Ps : (0 < inject_Z (10 ^ Z.of_nat d))%Q)
    by (rewrite Zlt_Qlt in P; exact P).
  unfold Qle. cbn [Qnum Qden].
  apply Z.mul_le_mono_nonneg_r; [lia |].
  apply round_half_even_mono. nra.
Qed.

(** A p-value below the threshold gives a significance above 0.95. *)
Lemma significance_high (reg : LinregressResult) :
  (p_value reg < 5 # 100)%Q -> (95 # 100 < significance reg)%Q.
Proof.
  intros P. unfold significance.
  replace (Qltb (p_value reg) (5 # 100)) with true
    by (symmetry; apply Qltb_true, P).
  unfold py_max. destruct (Qlt_le_dec 0 (1 - p_value reg)); lra.
Qed.

Lemma significance_zero (reg : LinregressResult) :
  (5 # 100 <= p_value reg)%Q -> significance reg = 0%Q.
Proof.
  intros P. unfold significance. apply Qltb_false in P. rewrite P. reflexivity.
Qed.

Lemma trend_direction_by_slope (slope significance : Q) :
  (7 # 10 < significance)%Q ->
  _determine_trend_direction slope significance = trend_by_slope slope.
Proof.
  intros S. unfold _determine_trend_direction, trend_by_slope.
  replace (Qltb significance (3 # 10)) with false
    by (symmetry; apply Qltb_false; lra).
  replace (Qgtb significance (7 # 10)) with true
    by (symmetry; apply Qltb_true; lra).
  replace (Qgtb significance (5 # 10)) with true
    by (symmetry; apply Qltb_true; lra).
  rewrite !andb_true_r. reflexivity.
Qed.

(** X3: on every path (no input, too few valid points, a scored sequence, a
    regression that raises) the record's [data_points] is the number of
    valid points of the input. *)
Theorem data_points_is_the_valid_count
  (config : option rating_map)
  (linregress : list Z -> list Z -> outcome LinregressResult)
  (clock : nat -> Z) (stock_ratings : option (list cell)) (n0 : nat) :
  dict_get
    (fst (calculate_rating_trend_strength_index config linregress clock
            stock_ratings n0)) "data_points"
  = Some (PInt (Z.of_nat (valid_points (RATING_SCORE_MAP config) stock_ratings))).
Proof.
  destruct (Nat.lt_ge_cases (valid_points (RATING_SCORE_MAP config) stock_ratings) 5)
    as [Short | Long].
  - rewrite (calc_insufficient config linregress clock stock_ratings n0 Short).
    reflexivity.
  - destruct stock_ratings as [ratings |]; [| simpl in Long; lia].
    cbn [valid_points] in *.
    destruct (linregress (arange (List.length (encode (RATING_SCORE_MAP config) ratings)))
                (encode (RATING_SCORE_MAP config) ratings)) as [reg | e] eqn:R.
    + rewrite (calc_returned config linregress clock ratings reg n0 Long R).
      reflexivity.
    + rewrite (calc_raised config linregress clock ratings e n0 Long R).
      reflexivity.
Qed.

(** X4: in a scored record the trend depends on the p-value only through
    the 0.05 threshold.  At or above it the trend is [neutral] and the
    confidence 0, whatever the slope; below it the significance exceeds
    0.95, so the significance thresholds 0.3, 0.5 and 0.7 of the classifier
    never decide and the trend is read off the slope alone. *)
Theorem scored_trend_is_decided_by_threshold_and_slope
  (config : option rating_map)
  (linregress : list Z -> list Z -> outcome LinregressResult)
  (clock : nat -> Z) (ratings : list cell) (reg : LinregressResult) (n0 : nat) :
  (5 <= valid_points (RATING_SCORE_MAP config) (Some ratings))%nat ->
  linregress (arange (valid_points (RATING_SCORE_MAP config) (Some ratings)))
             (encode (RATING_SCORE_MAP config) ratings) = Returned reg ->
  ((5 # 100 <= p_value reg)%Q ->
   dict_get
     (fst (calculate_rating_trend_strength_index config linregress clock
             (Some ratings) n0)) "trend" = Some (PStr "neutral")
   /\ dict_get
        (fst (calculate_rating_trend_strength_index config linregress clock
                (Some ratings) n0)) "confidence" = Some (PFloat (0 # 1000)))
  /\ ((p_value reg < 5 # 100)%Q ->
      dict_get
        (fst (calculate_rating_trend_strength_index config linregress clock
                (Some ratings) n0)) "trend"
      = Some (PStr (trend_by_slope (slope reg)))).
Proof.
  intros H R. cbn [valid_points] in *.
  rewrite (calc_returned config linregress clock ratings reg n0 H R).
  cbn [fst]. split; intros P.
  - rewrite (significance_zero reg P). split; reflexivity.
  - simpl. rewrite trend_direction_by_slope; [reflexivity |].
    pose proof (significance_high reg P). lra.
Qed.

Lemma scored_trend_is_decided_by_threshold_and_slope_witness :
  ((5 # 100 <= p_value perfect_fit)%Q ->
   dict_get
     (fst (calculate_rating_trend_strength_index None linregress_perfect test_clock
             (Some test_ratings) 0%nat)) "trend" = Some (PStr "neutral")
   /\ dict_get
        (fst (calculate_rating_trend_strength_index None linregress_perfect test_clock
                (Some test_ratings) 0%nat)) "confidence" = Some (PFloat (0 # 1000)))
  /\ ((p_value perfect_fit < 5 # 100)%Q ->
      dict_get
        (fst (calculate_rating_trend_strength_index None linregress_perfect test_clock
                (Some test_ratings) 0%nat)) "trend"
      = Some (PStr (trend_by_slope (slope perfect_fit)))).
Proof.
  apply (scored_trend_is_decided_by_threshold_and_slope None linregress_perfect
           test_clock test_ratings perfect_fit 0%nat).
  - vm_compute. lia.
  - reflexivity.
Defined.

Lemma consistency_nonneg (reg : LinregressResult) : (0 <= consistency reg)%Q.
Proof. rewrite consistency_spec. unfold spec_consistency. nra. Qed.

Lemma significance_nonneg (reg : LinregressResult) : (0 <= significance reg)%Q.
Proof.
  destruct (Qlt_le_dec (p_value reg) (5 # 100)) as [L | G].
  - pose proof (significance_high reg L). lra.
  - rewrite (significance_zero reg G). lra.
Qed.

Lemma classify_strong_bull_only_from_75 (v : Q) :
  (v < 75)%Q -> classify_rtsi_by_value v <> "strong_bull".
Proof.
  intros L. unfold classify_rtsi_by_value.
  replace (Qgeb v 75) with false by (symmetry; apply Qgeb_false, L).
  destruct (Qgeb v 60); [discriminate |].
  destruct (Qgeb v 50); [discriminate |].
  destruct (Qgeb v 40); [discriminate |].
  destruct (Qgeb v 30); [discriminate |].
  destruct (Qgeb v 20); discriminate.
Qed.

(** X5: the 0.05 threshold splits the scores.  A scored sequence whose
    p-value is at or above the threshold gets an rtsi of at most 70 (given a
    correlation coefficient in [-1, 1]), so [classify_rtsi_by_value] never
    calls it [strong_bull]; one whose p-value is below the threshold gets an
    rtsi of at least 28.5. *)
Theorem significance_threshold_splits_the_scores
  (config : option rating_map)
  (linregress : list Z -> list Z -> outcome LinregressResult)
  (clock : nat -> Z) (ratings : list cell) (reg : LinregressResult) (n0 : nat) :
  (5 <= valid_points (RATING_SCORE_MAP config) (Some ratings))%nat ->
  linregress (arange (valid_points (RATING_SCORE_MAP config) (Some ratings)))
             (encode (RATING_SCORE_MAP config) ratings) = Returned reg ->
  exists rtsi_out : Q,
    dict_get
      (fst (calculate_rating_trend_strength_index config linregress clock
              (Some ratings) n0)) "rtsi" = Some (PFloat rtsi_out)
    /\ ((5 # 100 <= p_value reg)%Q -> (-1 <= r_value reg <= 1)%Q ->
        (rtsi_out <= 70)%Q /\ classify_rtsi_by_value rtsi_out <> "strong_bull")
    /\ ((p_value reg < 5 # 100)%Q -> (285 # 10 <= rtsi_out)%Q).
Proof.
  intros H R. cbn [valid_points] in *.
  rewrite (calc_returned config linregress clock ratings reg n0 H R).
  eexists. cbn [fst]. split; [reflexivity |].
  pose proof (amplitude_bounds reg (List.length (encode (RATING_SCORE_MAP config) ratings)))
    as [A0 A1].
  pose proof (consistency_nonneg reg) as C0.
  split.
  - intros P Hr. pose proof (consistency_bounds reg Hr) as [_ C1].
    assert (B : (rtsi reg (List.length (encode (RATING_SCORE_MAP config) ratings))
                 <= inject_Z 70)%Q).
    { unfold rtsi. rewrite (significance_zero reg P).
      change (inject_Z 70) with 70%Q. lra. }
    assert (B0 : (inject_Z 0
                  <= rtsi reg (List.length (encode (RATING_SCORE_MAP config) ratings)))%Q).
    { unfold rtsi. rewrite (significance_zero reg P).
      change (inject_Z 0) with 0%Q. lra. }
    pose proof (py_round_bounds _ 2 0 70 (conj B0 B)) as [_ U].
    change (inject_Z 70) with 70%Q in U.
    split; [exact U |]. apply classify_strong_bull_only_from_75. lra.
  - intros P. pose proof (significance_high reg P) as S.
    apply Qle_trans with (py_round (285 # 10) 2).
    + vm_compute. discriminate.
    + apply py_round_mono. unfold rtsi. lra.
Qed.

Lemma significance_threshold_splits_the_scores_witness :
  exists rtsi_out : Q,
    dict_get
      (fst (calculate_rating_trend_strength_index None linregress_perfect test_clock
              (Some test_ratings) 0%nat)) "rtsi" = Some (PFloat rtsi_out)
    /\ ((5 # 100 <= p_value perfect_fit)%Q -> (-1 <= r_value perfect_fit <= 1)%Q ->
        (rtsi_out <= 70)%Q /\ classify_rtsi_by_value rtsi_out <> "strong_bull")
    /\ ((p_value perfect_fit < 5 # 100)%Q -> (285 # 10 <= rtsi_out)%Q).
Proof.
  apply (significance_threshold_splits_the_scores None linregress_perfect test_clock
           test_ratings perfect_fit 0%nat).
  - vm_compute. lia.
  - reflexivity.
Defined.

(** X6: of two regressions with the same correlation and slope over the
    same number of points, the one with the smaller p-value has the larger
    or equal significance and the larger or equal reported rtsi and
    confidence. *)
Theorem smaller_p_value_never_lowers_the_score
  (reg1 reg2 : LinregressResult) (n : nat) :
  r_value reg1 = r_value reg2 ->
  slope reg1 = slope reg2 ->
  (p_value reg1 <= p_value reg2)%Q ->
  (significance reg2 <= significance reg1)%Q
  /\ (py_round (rtsi reg2 n) 2 <= py_round (rtsi reg1 n) 2)%Q
  /\ (py_round (significance reg2) 3 <= py_round (significance reg1) 3)%Q.
Proof.
  intros Er Es Lp.
  assert (S : (significance reg2 <= significance reg1)%Q).
  { destruct (Qlt_le_dec (p_value reg2) (5 # 100)) as [L2 | G2].
    - assert (L1 : (p_value reg1 < 5 # 100)%Q) by lra.
      unfold significance.
      replace (Qltb (p_value reg1) (5 # 100)) with true
        by (symmetry; apply Qltb_true, L1).
      replace (Qltb (p_value reg2) (5 # 100)) with true
        by (symmetry; apply Qltb_true, L2).
      unfold py_max.
      destruct (Qlt_le_dec 0 (1 - p_value reg1));
        destruct (Qlt_le_dec 0 (1 - p_value reg2)); lra.
    - rewrite (significance_zero reg2 G2). apply significance_nonneg. }
  split; [exact S |]. split; [| apply py_round_mono, S].
  apply py_round_mono. unfold rtsi, consistency, amplitude.
  rewrite Er, Es. lra.
Qed.

Lemma smaller_p_value_never_lowers_the_score_witness :
  (significance {| slope := 1; intercept := 1; r_value := 1; p_value := 4 # 100;
                   std_err := 0 |}
   <= significance perfect_fit)%Q
  /\ (py_round (rtsi {| slope := 1; intercept := 1; r_value := 1; p_value := 4 # 100;
                        std_err := 0 |} 7) 2
      <= py_round (rtsi perfect_fit 7) 2)%Q
  /\ (py_round (significance {| slope := 1; intercept := 1; r_value := 1;
                                p_value := 4 # 100; std_err := 0 |}) 3
      <= py_round (significance perfect_fit) 3)%Q.
Proof.
  apply (smaller_p_value_never_lowers_the_score perfect_fit
           {| slope := 1; intercept := 1; r_value := 1; p_value := 4 # 100;
              std_err := 0 |} 7).
  - reflexivity.
  - reflexivity.
  - vm_compute. discriminate.
Defined.

(** ** The classifiers *)

(** Decide every comparison of the goal from the bounds in context. *)
Ltac settle_comparisons :=
  unfold Qgeb, Qgtb;
  repeat match goal with
    | |- context [Qltb ?a ?b] =>
        first [ replace (Qltb a b) with true by (symmetry; apply Qltb_true; lra)
              | replace (Qltb a b) with false by (symmetry; apply Qltb_false; lra) ]
    end.

(** Split on where a slope lies among the thresholds of the direction
    classifier, and where a significance lies among its own. *)
Ltac slope_regions slope :=
  destruct (Qlt_le_dec (15 # 100) slope);
  [| destruct (Qlt_le_dec (8 # 100) slope);
     [| destruct (Qlt_le_dec (3 # 100) slope);
        [| destruct (Qlt_le_dec slope (- (15 # 100)));
           [| destruct (Qlt_le_dec slope (- (8 # 100)));
              [| destruct (Qlt_le_dec slope (- (3 # 100)))]]]]].

Ltac significance_regions significance :=
  destruct (Qlt_le_dec significance (3 # 10));
  [| destruct (Qlt_le_dec (7 # 10) significance);
     [| destruct (Qlt_le_dec (5 # 10) significance)]].

Lemma trend_direction_in_categories (slope significance : Q) :
  In (_determine_trend_direction slope significance) trend_categories.
Proof.
  unfold _determine_trend_direction.
  repeat match goal with
    | |- context [if ?b then _ else _] => destruct b
    end;
    cbn; tauto.
Qed.

Lemma classify_in_categories (v : Q) :
  In (classify_rtsi_by_value v) trend_categories.
Proof.
  unfold classify_rtsi_by_value.
  repeat match goal with
    | |- context [if ?b then _ else _] => destruct b
    end;
    cbn; tauto.
Qed.

(** X7: the direction classifier treats rising and falling slopes alike:
    negating the slope turns each bull category into the bear category of
    the same strength, and leaves [neutral] in place. *)
Theorem trend_direction_is_mirror_symmetric (slope significance : Q) :
  _determine_trend_direction (- slope) significance
  = mirror_trend (_determine_trend_direction slope significance).
Proof.
  unfold _determine_trend_direction.
  significance_regions significance; slope_regions slope;
    settle_comparisons; reflexivity.
Qed.

Ltac value_regions v :=
  destruct (Qlt_le_dec v 75);
  [destruct (Qlt_le_dec v 60);
   [destruct (Qlt_le_dec v 50);
    [destruct (Qlt_le_dec v 40);
     [destruct (Qlt_le_dec v 30);
      [destruct (Qlt_le_dec v 20) | ] | ] | ] | ] | ].

Ltac confidence_regions c :=
  destruct (Qlt_le_dec c (4 # 10));
  [| destruct (Qlt_le_dec c (5 # 10));
     [| destruct (Qlt_le_dec c (7 # 10))]].

Ltac compute_ranks :=
  repeat match goal with
    | |- context [trend_rank ?s] =>
        let r := eval vm_compute in (trend_rank s) in
        change (trend_rank s) with r
    end.

(** X8: the direction classifier always answers one of the seven
    categories.  The answer is [neutral] exactly when the significance is
    below 0.3 or the slope lies within [-0.03, 0.03]; it is a bull category
    exactly when the significance is at least 0.3 and the slope above 0.03,
    and a bear category exactly when the significance is at least 0.3 and
    the slope below -0.03. *)
Theorem trend_direction_follows_the_sign_of_the_slope (slope significance : Q) :
  In (_determine_trend_direction slope significance) trend_categories
  /\ (trend_rank (_determine_trend_direction slope significance) = 3
      <-> (significance < 3 # 10)%Q \/ (- (3 # 100) <= slope <= 3 # 100)%Q)
  /\ (3 < trend_rank (_determine_trend_direction slope significance)
      <-> (3 # 10 <= significance)%Q /\ (3 # 100 < slope)%Q)
  /\ (trend_rank (_determine_trend_direction slope significance) < 3
      <-> (3 # 10 <= significance)%Q /\ (slope < - (3 # 100))%Q).
Proof.
  split; [apply trend_direction_in_categories |].
  unfold _determine_trend_direction.
  significance_regions significance; slope_regions slope;
    settle_comparisons; cbn [andb]; compute_ranks;
    (split; [| split]); split; intros;
    try lia; try lra;
    try (split; lra);
    try (left; lra); try (right; lra);
    try (exfalso; match goal with H : _ \/ _ |- _ => destruct H; lra end).
Qed.

(** X9: [classify_rtsi_by_value] is monotone: a larger value never gets a
    more bearish category. *)
Theorem classify_rtsi_by_value_is_monotone (v1 v2 : Q) :
  (v1 <= v2)%Q ->
  trend_rank (classify_rtsi_by_value v1) <= trend_rank (classify_rtsi_by_value v2).
Proof.
  intros L. unfold classify_rtsi_by_value.
  value_regions v1; value_regions v2;
    try (exfalso; lra);
    settle_comparisons; cbn [negb]; compute_ranks; lia.
Qed.

Lemma classify_rtsi_by_value_is_monotone_witness :
  trend_rank (classify_rtsi_by_value 35) <= trend_rank (classify_rtsi_by_value 62).
Proof.
  apply (classify_rtsi_by_value_is_monotone 35 62). vm_compute. discriminate.
Defined.

(** X10: the risk label for an rtsi of at least 40 is green or yellow, for
    an rtsi in [30, 40) it is the orange one whatever the confidence, and
    below 30 it is red.  The lowest-risk label is given exactly for an rtsi
    of at least 75 with a confidence of at least 0.7; with a confidence
    below 0.4 every rtsi of at least 40, also one above 75, gets the
    neutral-range label. *)
Theorem risk_level_by_rtsi_band (rtsi_value confidence : Q) :
  ((40 <= rtsi_value)%Q ->
   String.prefix "🟢" (calculate_risk_level_unified rtsi_value confidence)
   || String.prefix "🟡" (calculate_risk_level_unified rtsi_value confidence) = true)
  /\ ((30 <= rtsi_value < 40)%Q ->
      calculate_risk_level_unified rtsi_value confidence = "🟠 较高风险（弱势空头）")
  /\ ((rtsi_value < 30)%Q ->
      String.prefix "🔴" (calculate_risk_level_unified rtsi_value confidence) = true)
  /\ (calculate_risk_level_unified rtsi_value confidence = "🟢 极低风险（强势确认）"
      <-> (75 <= rtsi_value)%Q /\ (7 # 10 <= confidence)%Q)
  /\ ((40 <= rtsi_value)%Q -> (confidence < 4 # 10)%Q ->
      calculate_risk_level_unified rtsi_value confidence = "🟡 中等风险（中性区间）").
Proof.
  unfold calculate_risk_level_unified.
  value_regions rtsi_value; confidence_regions confidence;
    settle_comparisons; cbn [negb andb];
    (split; [| split; [| split; [| split]]]);
    try split; intros;
    try reflexivity; try discriminate; try lra;
    try (split; lra);
    try (exfalso; match goal with H : _ /\ _ |- _ => destruct H; lra end).
Qed.

(** X11: the terminology lookup never fails: for every category string it
    returns a record with the four keys [short], [detailed], [english] and
    [confidence_required], the last between 0.3 and 0.7.  Every category
    either classifier can answer has its own record; the two terminal
    trends of the scorer get the unknown-trend record. *)
Theorem terminology_lookup_is_total (trend_category : string) (v slope significance : Q) :
  (exists short detailed english confidence_required,
      get_professional_terminology trend_category
      = [("short", PStr short); ("detailed", PStr detailed);
         ("english", PStr english);
         ("confidence_required", PFloat confidence_required)]
      /\ (3 # 10 <= confidence_required <= 7 # 10)%Q)
  /\ get_professional_terminology (classify_rtsi_by_value v) <> unknown_terminology
  /\ get_professional_terminology (_determine_trend_direction slope significance)
     <> unknown_terminology
  /\ get_professional_terminology "insufficient_data" = unknown_terminology
  /\ get_professional_terminology "calculation_error" = unknown_terminology.
Proof.
  assert (Own : forall c, In c trend_categories ->
                          get_professional_terminology c <> unknown_terminology).
  { intros c I. cbn in I.
    repeat (destruct I as [<- | I]; [vm_compute; discriminate |]).
    contradiction. }
  split; [| split; [| split; [| split]]].
  - unfold get_professional_terminology, dict_get_default, terminology.
    cbn [dict_get].
    repeat match goal with
      | |- context [if String.eqb ?a trend_category then _ else _] =>
          destruct (String.eqb a trend_category)
      end;
      do 4 eexists; (split; [reflexivity | split; vm_compute; discriminate]).
  - apply Own, classify_in_categories.
  - apply Own, trend_direction_in_categories.
  - reflexivity.
  - reflexivity.
Qed.

(** ** More on the ranking *)

Lemma valid_results_length (items : dict (dict pyval)) (f : option string) :
  forall l, valid_results_of items f = Returned l ->
            (List.length l <= List.length items)%nat.
Proof.
  induction items as [| [code result] rest IH]; intros l E.
  - injection E as <-. simpl. lia.
  - cbn [valid_results_of] in E.
    destruct (py_gt_zero (dict_get_default result "rtsi" (PInt 0))) as [[|] | e];
      try discriminate.
    + destruct (trend_filtered_out f result) as [[|] | e]; try discriminate.
      * specialize (IH l E). simpl. lia.
      * destruct (valid_results_of rest f) as [l' | e]; try discriminate.
        injection E as <-. specialize (IH l' eq_refl). simpl. lia.
    + specialize (IH l E). simpl. lia.
Qed.

Lemma sort_desc_length {A} (key : A -> Q) (l : list A) :
  List.length (sort_desc key l) = List.length l.
Proof. apply Permutation_length, sort_desc_perm. Qed.

Lemma trend_filter_ignored (f : string) (result : dict pyval) :
  ~ In f documented_filters ->
  trend_filtered_out (Some f) result = Returned false.
Proof.
  intros N. unfold trend_filtered_out.
  destruct f as [| a f']; [reflexivity |].
  destruct (String.eqb_spec (String a f') "up") as [E | _];
    [exfalso; apply N; rewrite E; cbn; tauto |].
  destruct (String.eqb_spec (String a f') "down") as [E | _];
    [exfalso; apply N; rewrite E; cbn; tauto |].
  destruct (String.eqb_spec (String a f') "strong_up") as [E | _];
    [exfalso; apply N; rewrite E; cbn; tauto |].
  destruct (String.eqb_spec (String a f') "strong_down") as [E | _];
    [exfalso; apply N; rewrite E; cbn; tauto |].
  reflexivity.
Qed.

(** X12: a trend filter other than [up], [down], [strong_up] and
    [strong_down] is ignored: the ranking is the one without a filter.  In
    particular the name of a category, such as [strong_bull], filters
    nothing. *)
Theorem other_trend_filters_are_ignored
  (rtsi_results : dict (dict pyval)) (top_n : Z) (f : string) :
  ~ In f documented_filters ->
  get_rtsi_ranking rtsi_results top_n (Some f)
  = get_rtsi_ranking rtsi_results top_n None.
Proof.
  intros N. unfold get_rtsi_ranking.
  destruct rtsi_results as [| entry rest]; [reflexivity |].
  replace (valid_results_of (entry :: rest) (Some f))
    with (valid_results_of (entry :: rest) None); [reflexivity |].
  generalize (entry :: rest) as items.
  induction items as [| [code result] items IH]; [reflexivity |].
  cbn [valid_results_of]. rewrite (trend_filter_ignored f result N).
  cbn [trend_filtered_out]. rewrite IH. reflexivity.
Qed.

Lemma other_trend_filters_are_ignored_witness :
  get_rtsi_ranking ranked_results 50 (Some "strong_bull")
  = get_rtsi_ranking ranked_results 50 None.
Proof.
  apply (other_trend_filters_are_ignored ranked_results 50 "strong_bull").
  cbn. intuition discriminate.
Defined.

Lemma documented_filter_skips_scorer_trend (f : string) (result : dict pyval) :
  In f documented_filters -> has_scorer_trend result ->
  trend_filtered_out (Some f) result = Returned true.
Proof.
  intros F T. unfold has_scorer_trend in T. unfold trend_filtered_out, dict_get_default.
  destruct (dict_get result "trend") as [[| z | q | | t] |]; try contradiction.
  - cbn in T, F.
    repeat (destruct T as [<- | T];
            [repeat (destruct F as [<- | F]; [reflexivity |]); contradiction |]).
    contradiction.
  - cbn in F.
    repeat (destruct F as [<- | F]; [reflexivity |]). contradiction.
Qed.

(** X13: none of the trends the scorer writes contains [up] or [down], so
    on a result set whose records carry the scorer's trends each of the four
    documented filters leaves the ranking empty. *)
Theorem documented_filters_match_no_scorer_trend
  (rtsi_results : dict (dict pyval)) (top_n : Z) (f : string) :
  Forall (fun kv => rtsi_is_numeric (snd kv) = true /\ has_scorer_trend (snd kv))
         rtsi_results ->
  In f documented_filters ->
  get_rtsi_ranking rtsi_results top_n (Some f) = Returned [].
Proof.
  intros Records F. unfold get_rtsi_ranking.
  destruct rtsi_results as [| entry rest] eqn:E; [reflexivity |].
  rewrite <- E in *. clear E entry rest.
  replace (valid_results_of rtsi_results (Some f)) with (@Returned (list RankRow) []).
  - unfold slice_to, sort_desc. cbn [fold_right List.length].
    destruct (0 <=? top_n); [rewrite firstn_nil | ]; reflexivity.
  - symmetry.
    induction Records as [| [code result] rest [N T] _ IH]; [reflexivity |].
    cbn [valid_results_of]. cbn [snd] in N, T.
    rewrite (py_gt_zero_numeric result N).
    destruct (has_positive_rtsi result); [| exact IH].
    rewrite (documented_filter_skips_scorer_trend f result F T). exact IH.
Qed.

Lemma documented_filters_match_no_scorer_trend_witness :
  get_rtsi_ranking ranked_results 50 (Some "up") = Returned [].
Proof.
  apply (documented_filters_match_no_scorer_trend ranked_results 50 "up").
  - unfold ranked_results.
    repeat (apply Forall_cons;
            [split; [reflexivity | unfold has_scorer_trend; cbn; tauto] |]).
    apply Forall_nil.
  - cbn. tauto.
Defined.

(** X14: a shorter ranking is the beginning of a longer one: for limits
    [0 <= k <= k'] the top [k] entries are the first [k] of the top [k'],
    under any trend filter. *)
Theorem ranking_is_prefix_of_longer_ranking
  (rtsi_results : dict (dict pyval)) (k k' : Z) (f : option string)
  (longer : list (string * pyval * pyval * pyval)) :
  0 <= k <= k' ->
  get_rtsi_ranking rtsi_results k' f = Returned longer ->
  get_rtsi_ranking rtsi_results k f = Returned (firstn (Z.to_nat k) longer).
Proof.
  intros K. unfold get_rtsi_ranking.
  destruct rtsi_results as [| entry rest].
  - intros E. injection E as <-. rewrite firstn_nil. reflexivity.
  - destruct (valid_results_of (entry :: rest) f) as [valid | e]; [| discriminate].
    intros E. injection E as <-. f_equal. unfold slice_to.
    replace (0 <=? k) with true by (symmetry; apply Z.leb_le; lia).
    replace (0 <=? k') with true by (symmetry; apply Z.leb_le; lia).
    rewrite firstn_map, firstn_firstn.
    replace (Nat.min (Z.to_nat k) (Z.to_nat k')) with (Z.to_nat k) by lia.
    reflexivity.
Qed.

Lemma ranking_is_prefix_of_longer_ranking_witness :
  get_rtsi_ranking ranked_results 1 None
  = Returned (firstn (Z.to_nat 1)
                [("C", PStr "c", PFloat (8125 # 100), PStr "strong_bull");
                 ("A", PStr "a", PFloat (50 # 1), PStr "weak_bull");
                 ("D", PStr "未知", PFloat (100 # 2), PStr "neutral")]).
Proof.
  apply (ranking_is_prefix_of_longer_ranking ranked_results 1 50 None).
  - lia.
  - reflexivity.
Defined.

(** X15: a negative limit cuts from the end: with [top_n < 0] the ranking
    is the full ranking (the one with a limit of the size of the result
    set) without its last [-top_n] entries. *)
Theorem negative_limit_drops_the_last_entries
  (rtsi_results : dict (dict pyval)) (top_n : Z) (f : option string)
  (full : list (string * pyval * pyval * pyval)) :
  top_n < 0 ->
  get_rtsi_ranking rtsi_results (Z.of_nat (List.length rtsi_results)) f = Returned full ->
  get_rtsi_ranking rtsi_results top_n f
  = Returned (firstn (List.length full - Z.to_nat (- top_n)) full).
Proof.
  intros Neg. unfold get_rtsi_ranking.
  destruct rtsi_results as [| entry rest] eqn:Items.
  - intros E. injection E as <-. reflexivity.
  - rewrite <- Items. clear Items entry rest.
    destruct (valid_results_of rtsi_results f) as [valid | e] eqn:V; [| discriminate].
    intros E. injection E as <-. f_equal. unfold slice_to.
    replace (0 <=? top_n) with false by (symmetry; apply Z.leb_gt; lia).
    replace (0 <=? Z.of_nat (List.length rtsi_results)) with true
      by (symmetry; apply Z.leb_le; lia).
    rewrite Nat2Z.id.
    pose proof (valid_results_length rtsi_results f valid V) as Len.
    rewrite (firstn_all2 (n := List.length rtsi_results))
      by (rewrite sort_desc_length; exact Len).
    rewrite length_map, firstn_map. reflexivity.
Qed.

Lemma negative_limit_drops_the_last_entries_witness :
  get_rtsi_ranking ranked_results (-2) None
  = Returned
      (firstn
         (List.length
            [("C", PStr "c", PFloat (8125 # 100), PStr "strong_bull");
             ("A", PStr "a", PFloat (50 # 1), PStr "weak_bull");
             ("D", PStr "未知", PFloat (100 # 2), PStr "neutral")]
          - Z.to_nat (- -2))
         [("C", PStr "c", PFloat (8125 # 100), PStr "strong_bull");
          ("A", PStr "a", PFloat (50 # 1), PStr "weak_bull");
          ("D", PStr "未知", PFloat (100 # 2), PStr "neutral")]).
Proof.
  apply (negative_limit_drops_the_last_entries ranked_results (-2) None).
  - lia.
  - reflexivity.
Defined.

(** ** More on the batch engine *)

Lemma dict_get_set {V} (d : dict V) (k' : string) (v : V) (k : string) :
  dict_get (dict_set d k' v) k
  = if String.eqb k' k then Some v else dict_get d k.
Proof.
  induction d as [| [k0 v0] d IH]; cbn [dict_set dict_get]; [reflexivity |].
  destruct (String.eqb_spec k0 k') as [E0 | N0]; cbn [dict_get].
  - subst k0. destruct (String.eqb k' k); reflexivity.
  - destruct (String.eqb_spec k0 k) as [E | N].
    + subst k0. destruct (String.eqb_spec k' k) as [E | _]; [| reflexivity].
      exfalso. apply N0. symmetry. exact E.
    + exact IH.
Qed.

Lemma dict_set_keys_in {V} (d : dict V) (k' : string) (v : V) (k : string) :
  In k (dict_keys (dict_set d k' v)) <-> In k (dict_keys d) \/ k = k'.
Proof.
  induction d as [| [k0 v0] d IH]; cbn [dict_set dict_keys map fst In].
  - intuition.
  - destruct (String.eqb_spec k0 k') as [E | N]; cbn [map fst In].
    + subst k0. intuition.
    + unfold dict_keys in IH. rewrite IH. intuition.
Qed.

Lemma dict_set_keys_nodup {V} (d : dict V) (k : string) (v : V) :
  NoDup (dict_keys d) -> NoDup (dict_keys (dict_set d k v)).
Proof.
  induction d as [| [k0 v0] d IH]; cbn [dict_set dict_keys map fst]; intros N.
  - repeat constructor. intros [].
  - inversion N as [| ? ? Fresh Rest]; subst.
    destruct (String.eqb_spec k0 k) as [E | D]; cbn [map fst]; [exact N |].
    constructor; [| apply IH, Rest].
    intros I. apply (dict_set_keys_in d k v k0) in I.
    destruct I as [I | E]; [apply Fresh, I | apply D, E].
Qed.

Lemma dict_set_Forall {V} (P : string * V -> Prop) (d : dict V) (k : string) (v : V) :
  Forall P d -> P (k, v) -> Forall P (dict_set d k v).
Proof.
  induction 1 as [| [k0 v0] d P0 Fd IH]; intros Pk; cbn [dict_set].
  - repeat constructor. exact Pk.
  - destruct (String.eqb_spec k0 k) as [E | D].
    + subst k0. constructor; assumption.
    + constructor; [exact P0 | apply IH, Pk].
Qed.

Lemma with_metadata_get (cols : list string) (row : Z * list cell)
      (rtsi_result : dict pyval) (k : string) :
  k <> "stock_code" -> k <> "stock_name" -> k <> "industry" ->
  dict_get (with_metadata cols row rtsi_result) k = dict_get rtsi_result k.
Proof.
  intros N1 N2 N3. unfold with_metadata, dict_update. cbn [fold_left fst snd].
  rewrite !dict_get_set.
  destruct (String.eqb_spec "industry" k) as [E | _]; [congruence |].
  destruct (String.eqb_spec "stock_name" k) as [E | _]; [congruence |].
  destruct (String.eqb_spec "stock_code" k) as [E | _]; [congruence |].
  reflexivity.
Qed.


Section BatchRecords.
Variable config : option rating_map.
Variable linregress : list Z -> list Z -> outcome LinregressResult.
Variable clock : nat -> Z.

Local Abbreviation calc := (calculate_rating_trend_strength_index config linregress clock).
Local Abbreviation MAP := (RATING_SCORE_MAP config).

(** What every record of the scorer satisfies. *)
Lemma scorer_record_shape (stock_ratings : option (list cell)) (n : nat) :
  rtsi_is_numeric (fst (calc stock_ratings n)) = true
  /\ has_scorer_trend (fst (calc stock_ratings n))
  /\ ((valid_points MAP stock_ratings < 5)%nat ->
      dict_get (fst (calc stock_ratings n)) "trend" = Some (PStr "insufficient_data")
      /\ dict_get (fst (calc stock_ratings n)) "rtsi" = Some (PInt 0)).
Proof.
  destruct (Nat.lt_ge_cases (valid_points MAP stock_ratings) 5) as [Short | Long].
  - rewrite (calc_insufficient config linregress clock stock_ratings n Short).
    split; [reflexivity |]. split; [cbn; tauto |]. intros _. split; reflexivity.
  - destruct stock_ratings as [ratings |]; [| simpl in Long; lia].
    cbn [valid_points] in *.
    destruct (linregress (arange (List.length (encode MAP ratings))) (encode MAP ratings))
      as [reg | e] eqn:R.
    + rewrite (calc_returned config linregress clock ratings reg n Long R).
      split; [reflexivity |]. split; [| intros; lia].
      unfold has_scorer_trend. cbn [fst dict_get String.eqb Ascii.eqb Bool.eqb].
      unfold scorer_trends. apply in_or_app. left.
      apply trend_direction_in_categories.
    + rewrite (calc_raised config linregress clock ratings e n Long R).
      split; [reflexivity |]. split; [cbn; tauto | intros; lia].
Qed.

(** Every entry the loop stores is the scorer's record of a row, with the
    row's metadata, under the row's identifier. *)
Lemma batch_loop_entries (cols dcs : list string) (all : list (Z * list cell))
      (todo : list (Z * list cell)) :
  forall (results : dict (dict pyval)) (n : nat),
    let stored := fun kv : string * dict pyval =>
      exists row m,
        In row all /\ stock_code_of cols row = fst kv
        /\ snd kv = with_metadata cols row
                      (fst (calc (Some (map (fun c => row_get cols (snd row) c CNaN) dcs)) m)) in
    (forall row, In row todo -> In row all) ->
    Forall stored results ->
    Forall stored (fst (batch_loop config linregress clock cols dcs todo results n)).
Proof.
  induction todo as [| row rest IH]; intros results n stored Sub Inv; [exact Inv |].
  cbn [batch_loop]. unfold bind at 1.
  destruct (calc (Some (map (fun c => row_get cols (snd row) c CNaN) dcs)) n)
    as [rtsi_result n'] eqn:C.
  apply IH.
  - intros r I. apply Sub. right. exact I.
  - apply dict_set_Forall; [exact Inv |].
    exists row, n. split; [apply Sub; left; reflexivity |].
    split; [reflexivity |]. cbn [snd fst]. rewrite C. reflexivity.
Qed.

Lemma batch_loop_key_set (cols dcs : list string) (todo : list (Z * list cell)) :
  forall (results : dict (dict pyval)) (n : nat),
    NoDup (dict_keys results) ->
    NoDup (dict_keys (fst (batch_loop config linregress clock cols dcs todo results n)))
    /\ (forall k,
           In k (dict_keys (fst (batch_loop config linregress clock cols dcs todo
                                   results n)))
           <-> In k (dict_keys results) \/ In k (map (stock_code_of cols) todo)).
Proof.
  induction todo as [| row rest IH]; intros results n N.
  - cbn. split; [exact N | intros k; tauto].
  - cbn [batch_loop]. unfold bind.
    destruct (calc (Some (map (fun c => row_get cols (snd row) c CNaN) dcs)) n)
      as [rtsi_result n'].
    match goal with
    | |- context [batch_loop _ _ _ _ _ rest ?d n'] =>
        destruct (IH d n' (dict_set_keys_nodup _ _ _ N)) as [ND Keys]
    end.
    split; [exact ND |]. intros k. rewrite Keys, dict_set_keys_in.
    cbn [map In]. intuition.
Qed.

(** The result set a batch returns is the one its loop builds. *)
Lemma batch_returned (df : DataFrame) (n0 : nat) (results : dict (dict pyval)) :
  (exists c, In c (columns df) /\ String.prefix "202" c = true) ->
  fst (batch_calculate_rtsi config linregress clock (Some df) n0) = Returned results ->
  results = fst (batch_loop config linregress clock (columns df)
                   (date_columns_of (columns df)) (rows df) [] (S n0)).
Proof.
  intros Dated. unfold batch_calculate_rtsi.
  destruct (rows df) as [| row rest].
  - cbn. intros E. injection E as <-. reflexivity.
  - cbn [List.length Nat.eqb]. unfold bind, datetime_now, ret.
    rewrite (date_columns_nonempty _ Dated).
    destruct (batch_loop config linregress clock (columns df)
                (date_columns_of (columns df)) (row :: rest) [] (S n0)) as [built n_end].
    cbn [fst]. destruct (clock n_end - clock n0 =? 0); [discriminate |].
    intros E. injection E as <-. reflexivity.
Qed.

End BatchRecords.

Lemma trend_filter_returns (f : option string) (result : dict pyval) :
  has_scorer_trend result -> exists skip, trend_filtered_out f result = Returned skip.
Proof.
  intros T. unfold has_scorer_trend in T. unfold trend_filtered_out, dict_get_default.
  destruct f as [[| a f'] |]; try (eexists; reflexivity).
  destruct (dict_get result "trend") as [[| z | q | | t] |]; try contradiction;
    destruct (String.eqb (String a f') "up");
    try (eexists; reflexivity);
    destruct (String.eqb (String a f') "down");
    try (eexists; reflexivity);
    destruct (String.eqb (String a f') "strong_up");
    try (eexists; reflexivity);
    destruct (String.eqb (String a f') "strong_down");
    eexists; reflexivity.
Qed.

Lemma valid_results_return (rtsi_results : dict (dict pyval)) (f : option string) :
  Forall (fun kv => rtsi_is_numeric (snd kv) = true /\ has_scorer_trend (snd kv))
         rtsi_results ->
  exists l, valid_results_of rtsi_results f = Returned l.
Proof.
  induction 1 as [| [code result] rest [N T] _ [l IH]]; [eexists; reflexivity |].
  cbn [valid_results_of]. cbn [snd] in N, T.
  rewrite (py_gt_zero_numeric result N).
  destruct (has_positive_rtsi result); [| exists l; exact IH].
  destruct (trend_filter_returns f result T) as [[|] ->]; rewrite IH;
    eexists; reflexivity.
Qed.



(** X17: a returned batch has one entry per distinct identifier: no
    identifier occurs twice among its keys, and its keys are exactly the
    identifiers of the rows. *)
Theorem batch_has_one_entry_per_identifier
  (config : option rating_map)
  (linregress : list Z -> list Z -> outcome LinregressResult)
  (clock : nat -> Z) (df : DataFrame) (n0 : nat) (results : dict (dict pyval)) :
  (exists c, In c (columns df) /\ String.prefix "202" c = true) ->
  fst (batch_calculate_rtsi config linregress clock (Some df) n0) = Returned results ->
  NoDup (dict_keys results)
  /\ (forall k, In k (dict_keys results)
                <-> In k (map (stock_code_of (columns df)) (rows df)))
  /\ (List.length results <= List.length (rows df))%nat.
Proof.
  intros Dated Ret.
  rewrite (batch_returned config linregress clock df n0 results Dated Ret).
  destruct (batch_loop_key_set config linregress clock (columns df)
              (date_columns_of (columns df)) (rows df) [] (S n0) (NoDup_nil _))
    as [ND Keys].
  split; [exact ND |]. split.
  - intros k. rewrite Keys. cbn. tauto.
  - rewrite <- (length_map (stock_code_of (columns df)) (rows df)).
    rewrite <- (length_map fst).
    apply NoDup_incl_length; [exact ND |].
    intros k I. apply Keys in I. destruct I as [[] | I]. exact I.
Qed.

Lemma batch_has_one_entry_per_identifier_witness :
  NoDup (dict_keys duplicate_code_results)
  /\ (forall k,
         In k (dict_keys duplicate_code_results)
         <-> In k (map (stock_code_of (columns duplicate_code_table))
                     (rows duplicate_code_table)))
  /\ (List.length duplicate_code_results
      <= List.length (rows duplicate_code_table))%nat.
Proof.
  apply (batch_has_one_entry_per_identifier None linregress_perfect test_clock
           duplicate_code_table 0%nat).
  - exists "20250601". split; [cbn; tauto | reflexivity].
  - reflexivity.
Defined.

Lemma ranking_of_unscored (rtsi_results : dict (dict pyval)) (top_n : Z)
      (f : option string) :
  Forall (fun kv => rtsi_is_numeric (snd kv) = true /\ has_positive_rtsi (snd kv) = false)
         rtsi_results ->
  get_rtsi_ranking rtsi_results top_n f = Returned [].
Proof.
  intros Records. unfold get_rtsi_ranking.
  destruct rtsi_results as [| entry rest] eqn:E; [reflexivity |].
  rewrite <- E in *. clear E entry rest.
  replace (valid_results_of rtsi_results f) with (@Returned (list RankRow) []).
  - unfold slice_to, sort_desc. cbn [fold_right List.length].
    destruct (0 <=? top_n); [rewrite firstn_nil | ]; reflexivity.
  - symmetry.
    induction Records as [| [code result] rest [N P] _ IH]; [reflexivity |].
    cbn [valid_results_of]. cbn [snd] in N, P.
    rewrite (py_gt_zero_numeric result N), P. exact IH.
Qed.

(** X18: the scorer needs 5 valid points, so a table with fewer than 5
    dated columns scores nothing: every record of the returned batch is an
    insufficient-data record with rtsi 0, and the ranking of the batch is
    empty for every limit and filter. *)
Theorem few_date_columns_score_nothing
  (config : option rating_map)
  (linregress : list Z -> list Z -> outcome LinregressResult)
  (clock : nat -> Z) (df : DataFrame) (n0 : nat) (results : dict (dict pyval)) :
  (exists c, In c (columns df) /\ String.prefix "202" c = true) ->
  (List.length (filter (String.prefix "202") (columns df)) < 5)%nat ->
  fst (batch_calculate_rtsi config linregress clock (Some df) n0) = Returned results ->
  Forall (fun kv =>
            dict_get (snd kv) "trend" = Some (PStr "insufficient_data")
            /\ dict_get (snd kv) "rtsi" = Some (PInt 0))
         results
  /\ (forall top_n f, get_rtsi_ranking results top_n f = Returned []).
Proof.
  intros Dated Few Ret.
  assert (Unscored :
            Forall (fun kv =>
                      dict_get (snd kv) "trend" = Some (PStr "insufficient_data")
                      /\ dict_get (snd kv) "rtsi" = Some (PInt 0))
                   results).
  { rewrite (batch_returned config linregress clock df n0 results Dated Ret).
    eapply Forall_impl;
      [| apply (batch_loop_entries config linregress clock (columns df)
                  (date_columns_of (columns df)) (rows df) (rows df) [] (S n0));
         [intros row I; exact I | constructor]].
    intros [k record] (row & m & _ & _ & Rec). cbn [fst snd] in *. subst record.
    rewrite !with_metadata_get by discriminate.
    apply (scorer_record_shape config linregress clock).
    cbn [valid_points].
    eapply Nat.le_lt_trans; [apply encode_length |].
    rewrite length_map, (Permutation_length (date_columns_perm (columns df))).
    exact Few. }
  split; [exact Unscored |].
  intros top_n f. apply ranking_of_unscored.
  eapply Forall_impl; [| exact Unscored].
  intros [k record] [_ R]. cbn [snd] in *.
  unfold rtsi_is_numeric, has_positive_rtsi, rtsi_number, dict_get_default.
  rewrite R. split; reflexivity.
Qed.

Lemma few_date_columns_score_nothing_witness :
  Forall (fun kv =>
            dict_get (snd kv) "trend" = Some (PStr "insufficient_data")
            /\ dict_get (snd kv) "rtsi" = Some (PInt 0))
         duplicate_code_results
  /\ (forall top_n f, get_rtsi_ranking duplicate_code_results top_n f = Returned []).
Proof.
  apply (few_date_columns_score_nothing None linregress_perfect test_clock
           duplicate_code_table 0%nat).
  - exists "20250601". split; [cbn; tauto | reflexivity].
  - cbn. lia.
  - reflexivity.
Defined.

Lemma firstn_incl {A} (n : nat) (l : list A) (x : A) : In x (firstn n l) -> In x l.
Proof.
  intros I. rewrite <- (firstn_skipn n l). apply in_or_app. left. exact I.
Qed.

Lemma valid_results_members (items : dict (dict pyval)) (f : option string) :
  Forall (fun kv => rtsi_is_numeric (snd kv) = true) items ->
  forall l, valid_results_of items f = Returned l ->
  Forall (fun x => exists code result,
              In (code, result) items /\ has_positive_rtsi result = true
              /\ x = rank_row code result) l.
Proof.
  induction 1 as [| [code result] rest N _ IH]; intros l E.
  - injection E as <-. constructor.
  - cbn [valid_results_of] in E. cbn [snd] in N.
    rewrite (py_gt_zero_numeric result N) in E.
    assert (Rest : forall l', valid_results_of rest f = Returned l' ->
                              Forall (fun x => exists code0 result0,
                                          In (code0, result0) ((code, result) :: rest)
                                          /\ has_positive_rtsi result0 = true
                                          /\ x = rank_row code0 result0) l').
    { intros l' E'. eapply Forall_impl; [| apply (IH l' E')].
      intros x (c & r & I & P & X). exists c, r. split; [right; exact I | tauto]. }
    destruct (has_positive_rtsi result) eqn:P; [| apply Rest, E].
    destruct (trend_filtered_out f result) as [[|] | e]; try discriminate;
      [apply Rest, E |].
    destruct (valid_results_of rest f) as [l' | e]; try discriminate.
    injection E as <-. constructor; [| apply Rest; reflexivity].
    exists code, result. split; [left; reflexivity | split; [exact P | reflexivity]].
Qed.

(** X20: the ranking accepts every returned batch: for every limit and
    every filter it returns a list and raises nothing, and every entry it
    lists is a row of the batch that was scored, with an rtsi above 0 and
    one of the seven trend categories; rows without enough data and rows
    whose regression raised are never ranked. *)
Theorem ranking_of_a_batch_lists_scored_rows_only
  (config : option rating_map)
  (linregress : list Z -> list Z -> outcome LinregressResult)
  (clock : nat -> Z) (df : DataFrame) (n0 : nat) (results : dict (dict pyval))
  (top_n : Z) (f : option string) :
  (exists c, In c (columns df) /\ String.prefix "202" c = true) ->
  fst (batch_calculate_rtsi config linregress clock (Some df) n0) = Returned results ->
  exists out,
    get_rtsi_ranking results top_n f = Returned out
    /\ Forall (fun entry =>
                 In (fst (fst (fst entry))) (dict_keys results)
                 /\ (0 < number_of (snd (fst entry)))%Q
                 /\ exists t, snd entry = PStr t /\ In t trend_categories)
              out.
Proof.
  intros Dated Ret.
  assert (Inv :
            Forall (fun kv =>
                      (rtsi_is_numeric (snd kv) = true /\ has_scorer_trend (snd kv))
                      /\ (has_positive_rtsi (snd kv) = true ->
                          exists t, dict_get (snd kv) "trend" = Some (PStr t)
                                    /\ In t trend_categories))
                   results).
  { rewrite (batch_returned config linregress clock df n0 results Dated Ret).
    eapply Forall_impl;
      [| apply (batch_loop_entries config linregress clock (columns df)
                  (date_columns_of (columns df)) (rows df) (rows df) [] (S n0));
         [intros row I; exact I | constructor]].
    intros [k record] (row & m & _ & _ & Rec). cbn [fst snd] in *. subst record.
    set (input := Some (map (fun c => row_get (columns df) (snd row) c CNaN)
                          (date_columns_of (columns df)))).
    pose proof (scorer_record_shape config linregress clock input m)
      as (Num & Trend & Short).
    unfold rtsi_is_numeric, has_scorer_trend, has_positive_rtsi, rtsi_number,
      dict_get_default in *.
    rewrite !with_metadata_get by discriminate.
    split; [split; assumption |]. intros Pos.
    destruct (Nat.lt_ge_cases (valid_points (RATING_SCORE_MAP config) input) 5)
      as [S5 | L5].
    - destruct (Short S5) as [_ R0]. rewrite R0 in Pos. discriminate.
    - destruct (dict_get (fst (calculate_rating_trend_strength_index config linregress
                                 clock input m)) "trend") as [[| z | q | | t] |] eqn:T;
        try contradiction.
      + exists t. split; [reflexivity |].
        unfold scorer_trends in Trend. apply in_app_or in Trend.
        destruct Trend as [C | Terminal]; [exact C |].
        exfalso. unfold input in *. cbn [valid_points] in L5.
        destruct (linregress
                    (arange (List.length (encode (RATING_SCORE_MAP config)
                               (map (fun c => row_get (columns df) (snd row) c CNaN)
                                  (date_columns_of (columns df))))))
                    (encode (RATING_SCORE_MAP config)
                       (map (fun c => row_get (columns df) (snd row) c CNaN)
                          (date_columns_of (columns df))))) as [reg | e] eqn:R.
        * rewrite (calc_returned config linregress clock _ reg m L5 R) in T.
          cbn in T. injection T as <-.
          pose proof (trend_direction_in_categories (slope reg) (significance reg)) as C.
          cbn in Terminal, C.
          destruct Terminal as [E | [E | []]]; rewrite <- E in C;
            repeat (destruct C as [C | C]; [discriminate |]); contradiction.
        * rewrite (calc_raised config linregress clock _ e m L5 R) in Pos.
          discriminate.
      + exfalso. unfold input in *. cbn [valid_points] in L5.
        destruct (linregress
                    (arange (List.length (encode (RATING_SCORE_MAP config)
                               (map (fun c => row_get (columns df) (snd row) c CNaN)
                                  (date_columns_of (columns df))))))
                    (encode (RATING_SCORE_MAP config)
                       (map (fun c => row_get (columns df) (snd row) c CNaN)
                          (date_columns_of (columns df))))) as [reg | e] eqn:R.
        * rewrite (calc_returned config linregress clock _ reg m L5 R) in T.
          discriminate.
        * rewrite (calc_raised config linregress clock _ e m L5 R) in T.
          discriminate. }
  assert (Shape : Forall (fun kv => rtsi_is_numeric (snd kv) = true
                                    /\ has_scorer_trend (snd kv)) results)
    by (eapply Forall_impl; [| exact Inv]; intros kv [H _]; exact H).
  assert (Num : Forall (fun kv => rtsi_is_numeric (snd kv) = true) results)
    by (eapply Forall_impl; [| exact Shape]; intros kv [H _]; exact H).
  destruct (valid_results_return results f Shape) as [valid V].
  pose proof (valid_results_members results f Num valid V) as Members.
  unfold get_rtsi_ranking.
  destruct results as [| entry rest] eqn:Items; [exists []; split; constructor |].
  rewrite <- Items in *. rewrite V. eexists. split; [reflexivity |].
  rewrite Forall_forall in *. intros x I.
  apply in_map_iff in I. destruct I as (rowx & <- & I).
  assert (Iv : In rowx valid).
  { eapply Permutation_in; [apply sort_desc_perm |].
    unfold slice_to in I. destruct (0 <=? top_n); eapply firstn_incl; exact I. }
  destruct (Members rowx Iv) as (code & result & Ir & Pos & ->).
  destruct (Inv (code, result) Ir) as [_ Scored]. cbn [snd] in Scored.
  destruct (Scored Pos) as (t & T & C).
  cbn [rank_tuple rank_row rank_code rank_rtsi rank_trend fst snd].
  split; [apply in_map_iff; exists (code, result); split; [reflexivity | exact Ir] |].
  split.
  - unfold has_positive_rtsi, rtsi_number in Pos. apply Qltb_true in Pos. exact Pos.
  - exists t. unfold dict_get_default. rewrite T. split; [reflexivity | exact C].
Qed.

Lemma ranking_of_a_batch_lists_scored_rows_only_witness :
  exists out,
    get_rtsi_ranking test_data_results 2 None = Returned out
    /\ Forall (fun entry =>
                 In (fst (fst (fst entry))) (dict_keys test_data_results)
                 /\ (0 < number_of (snd (fst entry)))%Q
                 /\ exists t, snd entry = PStr t /\ In t trend_categories)
              out.
Proof.
  apply (ranking_of_a_batch_lists_scored_rows_only None linregress_perfect test_clock
           test_data 0%nat).
  - exists "20250601". split; [cbn; tauto | reflexivity].
  - vm_compute. reflexivity.
Defined.

(** ** The statistics *)

Lemma valid_rtsi_of_numeric (results : list (dict pyval)) :
  Forall (fun r => rtsi_is_numeric r = true) results ->
  valid_rtsi_of results
  = Returned (map (fun r => dict_get_default r "rtsi" PNone)
                (filter has_positive_rtsi results)).
Proof.
  induction 1 as [| r rest N _ IH]; [reflexivity |].
  cbn [valid_rtsi_of filter]. rewrite (py_gt_zero_numeric r N), IH.
  destruct (has_positive_rtsi r); reflexivity.
Qed.

Lemma valid_rtsi_number (r : dict pyval) :
  has_positive_rtsi r = true ->
  number_of (dict_get_default r "rtsi" PNone) = rtsi_number r
  /\ (0 < rtsi_number r)%Q.
Proof.
  unfold has_positive_rtsi, rtsi_number, dict_get_default. intros P.
  split; [| apply Qltb_true in P; exact P].
  destruct (dict_get r "rtsi"); [reflexivity | discriminate].
Qed.

Lemma filter_map_snd {A B} (p : B -> bool) (l : list (A * B)) :
  filter p (map snd l) = map snd (filter (fun kv => p (snd kv)) l).
Proof.
  induction l as [| [a b] l IH]; [reflexivity |].
  cbn [map filter snd]. destruct (p b); cbn [map snd]; rewrite IH; reflexivity.
Qed.

Lemma count_one_total (counts : list (pyval * Z)) (key : pyval) :
  total_count (count_one counts key) = total_count counts + 1.
Proof.
  unfold total_count.
  induction counts as [| [k c] rest IH]; cbn [count_one map snd fold_right]; [lia |].
  destruct (py_eqb k key); cbn [map snd fold_right]; lia.
Qed.

Lemma trend_counts_total (results : list (dict pyval)) :
  total_count (trend_counts_of results) = Z.of_nat (List.length results).
Proof.
  unfold trend_counts_of.
  assert (G : forall counts,
             total_count
               (fold_left
                  (fun counts result =>
                     count_one counts (dict_get_default result "trend" (PStr "unknown")))
                  results counts)
             = total_count counts + Z.of_nat (List.length results)).
  { induction results as [| r rest IH]; intros counts; cbn [fold_left List.length].
    - lia.
    - rewrite IH, count_one_total. lia. }
  rewrite G. reflexivity.
Qed.

Lemma count_one_positive (counts : list (pyval * Z)) (key : pyval) :
  Forall (fun kc => 1 <= snd kc) counts ->
  Forall (fun kc => 1 <= snd kc) (count_one counts key).
Proof.
  induction 1 as [| [k c] rest P Prest IH]; cbn [count_one].
  - constructor; [cbn; lia | constructor].
  - cbn [snd] in P. destruct (py_eqb k key); constructor; cbn [snd]; try lia;
      assumption.
Qed.

Lemma count_one_has_key (counts : list (pyval * Z)) (key : pyval) :
  exists k c, In (k, c) (count_one counts key) /\ py_eqb k key = true.
Proof.
  induction counts as [| [k c] rest (k' & c' & I & E)]; cbn [count_one].
  - exists key, (0 + 1). split; [left; reflexivity |].
    destruct key; cbn; try reflexivity.
    + apply Z.eqb_refl.
    + apply Qeq_bool_iff. reflexivity.
    + apply String.eqb_refl.
  - destruct (py_eqb k key) eqn:Ek.
    + exists k, (c + 1). split; [left; reflexivity | exact Ek].
    + exists k', c'. split; [right; exact I | exact E].
Qed.

Lemma count_one_keeps_keys (counts : list (pyval * Z)) (key k : pyval) (c : Z) :
  In (k, c) counts -> exists c', In (k, c') (count_one counts key).
Proof.
  induction counts as [| [k0 c0] rest IH]; [intros [] |].
  intros [E | I]; cbn [count_one].
  - injection E as -> ->. destruct (py_eqb k key); eexists; left; reflexivity.
  - destruct (IH I) as [c' I']. destruct (py_eqb k0 key).
    + exists c. right. exact I.
    + exists c'. right. exact I'.
Qed.

Lemma trend_counts_cover (results : list (dict pyval)) (r : dict pyval) :
  In r results ->
  exists k c, In (k, c) (trend_counts_of results)
              /\ py_eqb k (dict_get_default r "trend" (PStr "unknown")) = true.
Proof.
  unfold trend_counts_of. intros I.
  assert (G : forall counts,
             (exists k c, In (k, c) counts
                          /\ py_eqb k (dict_get_default r "trend" (PStr "unknown")) = true)
             \/ In r results ->
             exists k c,
               In (k, c)
                  (fold_left
                     (fun counts result =>
                        count_one counts
                          (dict_get_default result "trend" (PStr "unknown")))
                     results counts)
               /\ py_eqb k (dict_get_default r "trend" (PStr "unknown")) = true).
  { clear I. induction results as [| r0 rest IH]; intros counts H; cbn [fold_left].
    - destruct H as [H | []]. exact H.
    - apply IH. destruct H as [(k & c & Ik & E) | [-> | Ir]].
      + left. destruct (count_one_keeps_keys counts
                          (dict_get_default r0 "trend" (PStr "unknown")) k c Ik)
          as [c' I']. exists k, c'. split; assumption.
      + left. apply count_one_has_key.
      + right. exact Ir. }
  apply G. right. exact I.
Qed.

Lemma trend_counts_positive (results : list (dict pyval)) :
  Forall (fun kc => 1 <= snd kc) (trend_counts_of results).
Proof.
  unfold trend_counts_of.
  assert (G : forall counts,
             Forall (fun kc => 1 <= snd kc) counts ->
             Forall (fun kc => 1 <= snd kc)
                    (fold_left
                       (fun counts result =>
                          count_one counts
                            (dict_get_default result "trend" (PStr "unknown")))
                       results counts)).
  { induction results as [| r rest IH]; intros counts P; cbn [fold_left];
      [exact P | apply IH, count_one_positive, P]. }
  apply G. constructor.
Qed.

Lemma py_max_list_spec (rest : list pyval) :
  forall first,
    (number_of first <= number_of (py_max_list first rest))%Q
    /\ Forall (fun x => (number_of x <= number_of (py_max_list first rest))%Q) rest
    /\ (py_max_list first rest = first \/ In (py_max_list first rest) rest).
Proof.
  unfold py_max_list.
  induction rest as [| x rest IH]; intros first; cbn [fold_left].
  - split; [lra | split; [constructor | left; reflexivity]].
  - destruct (Qltb (number_of first) (number_of x)) eqn:E;
      [apply Qltb_true in E | apply Qltb_false in E];
      match goal with
      | |- context [fold_left _ rest ?b] => destruct (IH b) as (B & F & M)
      end;
      (split; [lra | split; [constructor; [lra | exact F] |]]);
      destruct M as [-> | M]; cbn [In]; tauto.
Qed.

Lemma py_min_list_spec (rest : list pyval) :
  forall first,
    (number_of (py_min_list first rest) <= number_of first)%Q
    /\ Forall (fun x => (number_of (py_min_list first rest) <= number_of x)%Q) rest
    /\ (py_min_list first rest = first \/ In (py_min_list first rest) rest).
Proof.
  unfold py_min_list.
  induction rest as [| x rest IH]; intros first; cbn [fold_left].
  - split; [lra | split; [constructor | left; reflexivity]].
  - destruct (Qltb (number_of x) (number_of first)) eqn:E;
      [apply Qltb_true in E | apply Qltb_false in E];
      match goal with
      | |- context [fold_left _ rest ?b] => destruct (IH b) as (B & F & M)
      end;
      (split; [lra | split; [constructor; [lra | exact F] |]]);
      destruct M as [-> | M]; cbn [In]; tauto.
Qed.

Lemma np_median_bounds (lo hi : Q) (l : list Q) :
  l <> [] -> Forall (fun q => (lo <= q <= hi)%Q) l ->
  (lo <= np_median l <= hi)%Q.
Proof.
  intros N F. unfold np_median.
  assert (S : Forall (fun q => (lo <= q <= hi)%Q) (sort_desc (fun x => x) l))
    by (eapply Permutation_Forall; [symmetry; apply sort_desc_perm | exact F]).
  rewrite Forall_forall in S.
  assert (Len : (0 < List.length l)%nat)
    by (destruct l; [contradiction | cbn [List.length]; lia]).
  assert (At : forall i, (i < List.length l)%nat ->
                         (lo <= nth i (sort_desc (fun x => x) l) 0 <= hi)%Q).
  { intros i I. apply S, nth_In. rewrite sort_desc_length. exact I. }
  assert (Half : (List.length l / 2 < List.length l)%nat)
    by (apply Nat.div_lt; lia).
  destruct (Nat.even (List.length l)).
  - pose proof (At (List.length l / 2 - 1)%nat ltac:(lia)) as [A1 A2].
    pose proof (At (List.length l / 2)%nat Half) as [B1 B2].
    split.
    + apply Qle_shift_div_l; lra.
    + apply Qle_shift_div_r; lra.
  - apply At, Half.
Qed.

Lemma positive_number_is_stat (v : pyval) :
  (0 < number_of v)%Q ->
  match v with
  | PInt z => Some (inject_Z z)
  | PFloat q => Some q
  | _ => None
  end = Some (number_of v).
Proof.
  destruct v; cbn; intros P; try reflexivity; exfalso; lra.
Qed.

Section StatisticsFacts.
Variable np_std : list Q -> Q.

(** With at least one valid entry, the statistics are the full record. *)
Lemma statistics_full (rtsi_results : dict (dict pyval)) :
  Forall (fun kv => rtsi_is_numeric (snd kv) = true) rtsi_results ->
  valid_entries rtsi_results <> [] ->
  exists first rest,
    map (fun kv => dict_get_default (snd kv) "rtsi" PNone) (valid_entries rtsi_results)
    = first :: rest
    /\ get_rtsi_statistics np_std rtsi_results
       = Returned
           [("total_stocks", SVal (PInt (Z.of_nat (List.length rtsi_results))));
            ("valid_calculations",
             SVal (PInt (Z.of_nat (List.length (first :: rest)))));
            ("success_rate",
             SVal (PFloat (inject_Z (Z.of_nat (List.length (first :: rest)))
                           / inject_Z (Z.of_nat (List.length rtsi_results)) * 100)));
            ("rtsi_mean", SVal (PFloat (np_mean (map number_of (first :: rest)))));
            ("rtsi_median", SVal (PFloat (np_median (map number_of (first :: rest)))));
            ("rtsi_std", SVal (PFloat (np_std (map number_of (first :: rest)))));
            ("rtsi_max", SVal (py_max_list first rest));
            ("rtsi_min", SVal (py_min_list first rest));
            ("trend_distribution", SCounts (trend_counts_of (map snd rtsi_results)))].
Proof.
  intros Num Valid. unfold get_rtsi_statistics.
  assert (NumR : Forall (fun r => rtsi_is_numeric r = true) (map snd rtsi_results)).
  { rewrite Forall_map. exact Num. }
  rewrite (valid_rtsi_of_numeric _ NumR), filter_map_snd, map_map.
  fold (valid_entries rtsi_results).
  destruct rtsi_results as [| entry others] eqn:E.
  - exfalso. apply Valid. reflexivity.
  - rewrite <- E in *.
    destruct (valid_entries rtsi_results) as [| kv kvs] eqn:V; [contradiction |].
    cbn [map]. do 2 eexists. split; reflexivity.
Qed.

End StatisticsFacts.

(** X21: the statistics of an empty result set are the empty record; those
    of a result set without any entry of rtsi > 0 hold the two counts only,
    [total_stocks] and [valid_calculations = 0], and none of the other
    keys. *)
Theorem statistics_without_valid_entries
  (np_std : list Q -> Q) (rtsi_results : dict (dict pyval)) :
  rtsi_results <> [] ->
  Forall (fun kv => rtsi_is_numeric (snd kv) = true) rtsi_results ->
  valid_entries rtsi_results = [] ->
  get_rtsi_statistics np_std rtsi_results
  = Returned [("total_stocks", SVal (PInt (Z.of_nat (List.length rtsi_results))));
              ("valid_calculations", SVal (PInt 0))]
  /\ get_rtsi_statistics np_std [] = Returned [].
Proof.
  intros NonEmpty Num NoValid. split; [| reflexivity].
  unfold get_rtsi_statistics.
  assert (NumR : Forall (fun r => rtsi_is_numeric r = true) (map snd rtsi_results)).
  { rewrite Forall_map. exact Num. }
  rewrite (valid_rtsi_of_numeric _ NumR), filter_map_snd.
  fold (valid_entries rtsi_results). rewrite NoValid.
  destruct rtsi_results; [contradiction | reflexivity].
Qed.

Lemma statistics_without_valid_entries_witness :
  get_rtsi_statistics std_stub duplicate_code_results
  = Returned [("total_stocks",
               SVal (PInt (Z.of_nat (List.length duplicate_code_results))));
              ("valid_calculations", SVal (PInt 0))]
  /\ get_rtsi_statistics std_stub [] = Returned [].
Proof.
  apply (statistics_without_valid_entries std_stub duplicate_code_results).
  - discriminate.
  - repeat constructor.
  - reflexivity.
Defined.

(** X22: with at least one entry of rtsi > 0, [total_stocks] is the size of
    the result set, [valid_calculations] the number of entries with
    rtsi > 0, between 1 and [total_stocks], and [success_rate] their ratio in
    percent, above 0 and at most 100; the full ranking of the same result
    set lists exactly [valid_calculations] entries. *)
Theorem statistics_count_the_valid_entries
  (np_std : list Q -> Q) (rtsi_results : dict (dict pyval)) :
  Forall (fun kv => rtsi_is_numeric (snd kv) = true) rtsi_results ->
  valid_entries rtsi_results <> [] ->
  exists stats rate,
    get_rtsi_statistics np_std rtsi_results = Returned stats
    /\ stat_number stats "total_stocks"
       = Some (inject_Z (Z.of_nat (List.length rtsi_results)))
    /\ stat_number stats "valid_calculations"
       = Some (inject_Z (Z.of_nat (List.length (valid_entries rtsi_results))))
    /\ (1 <= List.length (valid_entries rtsi_results) <= List.length rtsi_results)%nat
    /\ stat_number stats "success_rate" = Some rate
    /\ (rate == inject_Z (Z.of_nat (List.length (valid_entries rtsi_results)))
                / inject_Z (Z.of_nat (List.length rtsi_results)) * 100)%Q
    /\ (0 < rate <= 100)%Q
    /\ exists full,
         get_rtsi_ranking rtsi_results (Z.of_nat (List.length rtsi_results)) None
         = Returned full
         /\ List.length full = List.length (valid_entries rtsi_results).
Proof.
  intros Num Valid.
  destruct (statistics_full np_std rtsi_results Num Valid) as (first & rest & V & ->).
  assert (Len : List.length (first :: rest) = List.length (valid_entries rtsi_results))
    by (rewrite <- V, length_map; reflexivity).
  assert (Bounds : (1 <= List.length (valid_entries rtsi_results)
                    <= List.length rtsi_results)%nat).
  { split; [rewrite <- Len; cbn [List.length]; lia | apply filter_length_le]. }
  do 2 eexists. split; [reflexivity |].
  split; [reflexivity |]. split; [cbn; rewrite <- Len; reflexivity |].
  split; [exact Bounds |]. split; [reflexivity |].
  rewrite Len. split; [reflexivity |]. split.
  - set (a := inject_Z (Z.of_nat (List.length (valid_entries rtsi_results)))).
    set (b := inject_Z (Z.of_nat (List.length rtsi_results))).
    assert (A : (1 <= a)%Q)
      by (unfold a; change 1%Q with (inject_Z 1); rewrite <- Zle_Qle; lia).
    assert (B : (a <= b)%Q) by (unfold a, b; rewrite <- Zle_Qle; lia).
    assert (D0 : (0 < a / b)%Q) by (apply Qlt_shift_div_l; lra).
    assert (D1 : (a / b <= 1)%Q) by (apply Qle_shift_div_r; lra).
    split; lra.
  - unfold get_rtsi_ranking.
    destruct rtsi_results as [| entry others] eqn:E;
      [exfalso; apply Valid; reflexivity |].
    rewrite <- E in *. rewrite (valid_results_unfiltered _ Num).
    eexists. split; [reflexivity |].
    unfold slice_to.
    replace (0 <=? Z.of_nat (List.length rtsi_results)) with true
      by (symmetry; apply Z.leb_le; lia).
    rewrite Nat2Z.id, length_map, firstn_all2;
      rewrite sort_desc_length, length_map; [reflexivity |].
    apply filter_length_le.
Qed.

Lemma statistics_count_the_valid_entries_witness :
  exists stats rate,
    get_rtsi_statistics std_stub ranked_results = Returned stats
    /\ stat_number stats "total_stocks"
       = Some (inject_Z (Z.of_nat (List.length ranked_results)))
    /\ stat_number stats "valid_calculations"
       = Some (inject_Z (Z.of_nat (List.length (valid_entries ranked_results))))
    /\ (1 <= List.length (valid_entries ranked_results)
        <= List.length ranked_results)%nat
    /\ stat_number stats "success_rate" = Some rate
    /\ (rate == inject_Z (Z.of_nat (List.length (valid_entries ranked_results)))
                / inject_Z (Z.of_nat (List.length ranked_results)) * 100)%Q
    /\ (0 < rate <= 100)%Q
    /\ exists full,
         get_rtsi_ranking ranked_results (Z.of_nat (List.length ranked_results)) None
         = Returned full
         /\ List.length full = List.length (valid_entries ranked_results).
Proof.
  apply (statistics_count_the_valid_entries std_stub ranked_results).
  - repeat constructor.
  - discriminate.
Defined.

(** X23: with at least one entry of rtsi > 0, [rtsi_min] and [rtsi_max]
    are the smallest and the largest rtsi among the valid entries (both above
    0, both the rtsi of an entry), and [rtsi_median], a middle value or the
    mean of the two middle values, lies between them. *)
Theorem statistics_are_ordered
  (np_std : list Q -> Q) (rtsi_results : dict (dict pyval)) :
  Forall (fun kv => rtsi_is_numeric (snd kv) = true) rtsi_results ->
  valid_entries rtsi_results <> [] ->
  exists stats lowest median highest,
    get_rtsi_statistics np_std rtsi_results = Returned stats
    /\ stat_number stats "rtsi_min" = Some lowest
    /\ stat_number stats "rtsi_median" = Some median
    /\ stat_number stats "rtsi_max" = Some highest
    /\ (0 < lowest)%Q
    /\ (lowest <= median <= highest)%Q
    /\ Forall (fun kv => (lowest <= rtsi_number (snd kv) <= highest)%Q)
              (valid_entries rtsi_results)
    /\ (exists kv, In kv (valid_entries rtsi_results) /\ rtsi_number (snd kv) = lowest)
    /\ (exists kv, In kv (valid_entries rtsi_results) /\ rtsi_number (snd kv) = highest).
Proof.
  intros Num Valid.
  destruct (statistics_full np_std rtsi_results Num Valid) as (first & rest & V & ->).
  set (g := fun kv : string * dict pyval => dict_get_default (snd kv) "rtsi" PNone) in *.
  assert (Entry : forall kv, In kv (valid_entries rtsi_results) ->
                             number_of (g kv) = rtsi_number (snd kv)
                             /\ (0 < rtsi_number (snd kv))%Q).
  { intros kv I. apply filter_In in I. apply valid_rtsi_number, I. }
  assert (Back : forall v, In v (first :: rest) ->
                           exists kv, In kv (valid_entries rtsi_results)
                                      /\ rtsi_number (snd kv) = number_of v
                                      /\ (0 < number_of v)%Q).
  { intros v I. rewrite <- V in I. apply in_map_iff in I.
    destruct I as (kv & <- & I). destruct (Entry kv I) as [E P].
    exists kv. rewrite E. tauto. }
  destruct (py_min_list_spec rest first) as (Lf & Lr & Lm).
  destruct (py_max_list_spec rest first) as (Hf & Hr & Hm).
  set (lo := py_min_list first rest) in *.
  set (hi := py_max_list first rest) in *.
  assert (Ilo : In lo (first :: rest)) by (destruct Lm as [-> | I]; cbn [In]; tauto).
  assert (Ihi : In hi (first :: rest)) by (destruct Hm as [-> | I]; cbn [In]; tauto).
  destruct (Back lo Ilo) as (kvlo & Iklo & Rlo & Plo).
  destruct (Back hi Ihi) as (kvhi & Ikhi & Rhi & Phi).
  assert (All : Forall (fun q => (number_of lo <= q <= number_of hi)%Q)
                       (map number_of (first :: rest))).
  { rewrite Forall_map. constructor; [split; assumption |].
    rewrite Forall_forall in *. intros x I. split; [apply Lr, I | apply Hr, I]. }
  eexists. exists (number_of lo). eexists. exists (number_of hi).
  split; [reflexivity |].
  split; [unfold stat_number; cbn [dict_get String.eqb Ascii.eqb Bool.eqb];
          apply positive_number_is_stat, Plo |].
  split; [reflexivity |].
  split; [unfold stat_number; cbn [dict_get String.eqb Ascii.eqb Bool.eqb];
          apply positive_number_is_stat, Phi |].
  split; [exact Plo |].
  split; [apply np_median_bounds; [discriminate | exact All] |].
  split; [| split; [exists kvlo | exists kvhi]; tauto].
  rewrite Forall_forall. intros kv I.
  destruct (Entry kv I) as [E _]. rewrite <- E.
  rewrite Forall_forall in All. apply All.
  rewrite <- V, map_map. apply in_map_iff. exists kv. split; [reflexivity | exact I].
Qed.

Lemma statistics_are_ordered_witness :
  exists stats lowest median highest,
    get_rtsi_statistics std_stub ranked_results = Returned stats
    /\ stat_number stats "rtsi_min" = Some lowest
    /\ stat_number stats "rtsi_median" = Some median
    /\ stat_number stats "rtsi_max" = Some highest
    /\ (0 < lowest)%Q
    /\ (lowest <= median <= highest)%Q
    /\ Forall (fun kv => (lowest <= rtsi_number (snd kv) <= highest)%Q)
              (valid_entries ranked_results)
    /\ (exists kv, In kv (valid_entries ranked_results) /\ rtsi_number (snd kv) = lowest)
    /\ (exists kv, In kv (valid_entries ranked_results)
                   /\ rtsi_number (snd kv) = highest).
Proof.
  apply (statistics_are_ordered std_stub ranked_results).
  - repeat constructor.
  - discriminate.
Defined.

(** X24: with at least one entry of rtsi > 0, [trend_distribution] counts
    every entry of the result set, valid or not: its counts are all at least
    1 and add up to [total_stocks], and the trend of every entry (or
    [unknown] for an entry without one) is one of its keys. *)
Theorem trend_distribution_counts_every_entry
  (np_std : list Q -> Q) (rtsi_results : dict (dict pyval)) :
  Forall (fun kv => rtsi_is_numeric (snd kv) = true) rtsi_results ->
  valid_entries rtsi_results <> [] ->
  exists stats counts,
    get_rtsi_statistics np_std rtsi_results = Returned stats
    /\ dict_get stats "trend_distribution" = Some (SCounts counts)
    /\ total_count counts = Z.of_nat (List.length rtsi_results)
    /\ stat_number stats "total_stocks" = Some (inject_Z (total_count counts))
    /\ Forall (fun kc => 1 <= snd kc) counts
    /\ (forall kv, In kv rtsi_results ->
                   exists k c,
                     In (k, c) counts
                     /\ py_eqb k (dict_get_default (snd kv) "trend" (PStr "unknown"))
                        = true).
Proof.
  intros Num Valid.
  destruct (statistics_full np_std rtsi_results Num Valid) as (first & rest & V & ->).
  do 2 eexists. split; [reflexivity |]. split; [reflexivity |].
  pose proof (trend_counts_total (map snd rtsi_results)) as T.
  rewrite length_map in T.
  split; [exact T |]. split; [cbn; rewrite T; reflexivity |].
  split; [apply trend_counts_positive |].
  intros kv I. apply trend_counts_cover. apply in_map. exact I.
Qed.

Lemma trend_distribution_counts_every_entry_witness :
  exists stats counts,
    get_rtsi_statistics std_stub ranked_results = Returned stats
    /\ dict_get stats "trend_distribution" = Some (SCounts counts)
    /\ total_count counts = Z.of_nat (List.length ranked_results)
    /\ stat_number stats "total_stocks" = Some (inject_Z (total_count counts))
    /\ Forall (fun kc => 1 <= snd kc) counts
    /\ (forall kv, In kv ranked_results ->
                   exists k c,
                     In (k, c) counts
                     /\ py_eqb k (dict_get_default (snd kv) "trend" (PStr "unknown"))
                        = true).
Proof.
  apply (trend_distribution_counts_every_entry std_stub ranked_results).
  - repeat constructor.
  - discriminate.
Defined.

(** ** More on the calculator object *)

Section CalculatorFacts.
Variable config : option rating_map.
Variable linregress : list Z -> list Z -> outcome LinregressResult.
Variable clock : nat -> Z.

Lemma calculate_all_step (self : RTSICalculator) (stock_ratings : option (list cell))
      (rest : list (option (list cell))) (n : nat) :
  calculate_all config linregress clock self (stock_ratings :: rest) n
  = let step := RTSICalculator_calculate config linregress clock self stock_ratings n in
    let tail := calculate_all config linregress clock (fst (fst step)) rest (snd step) in
    (fst (fst tail), snd (fst step) :: snd (fst tail), snd tail).
Proof.
  cbn [calculate_all]. unfold bind, ret.
  destruct (RTSICalculator_calculate config linregress clock self stock_ratings n)
    as [[self' r] n'].
  cbn [fst snd].
  destruct (calculate_all config linregress clock self' rest n') as [[self'' rs] n''].
  reflexivity.
Qed.

Lemma calculate_step_fields (self : RTSICalculator)
      (stock_ratings : option (list cell)) (n : nat) :
  RTSICalculator_calculate config linregress clock self stock_ratings n
  = ({| calc_rating_map := calc_rating_map self;
        min_data_points := min_data_points self;
        calculation_count := calculation_count self + 1 |},
     fst (calculate_rating_trend_strength_index config linregress clock stock_ratings n),
     snd (calculate_rating_trend_strength_index config linregress clock stock_ratings n)).
Proof.
  unfold RTSICalculator_calculate, bind, ret.
  destruct (calculate_rating_trend_strength_index config linregress clock
              stock_ratings n) as [r n'].
  reflexivity.
Qed.

End CalculatorFacts.

(** X25: a calculator counts its calls and nothing else: after a run of
    [calculate] calls its counter has grown by the number of calls while its
    map and threshold are unchanged, [__str__] shows the new counter, and
    [reset_counter] puts it back to 0; the records returned are the same
    for any two calculators, whatever map and threshold they were built
    with. *)
Theorem calculator_counts_its_calls
  (config : option rating_map)
  (linregress : list Z -> list Z -> outcome LinregressResult)
  (clock : nat -> Z) (self other : RTSICalculator)
  (inputs : list (option (list cell))) (n0 : nat) :
  calculation_count (fst (fst (calculate_all config linregress clock self inputs n0)))
  = calculation_count self + Z.of_nat (List.length inputs)
  /\ calc_rating_map (fst (fst (calculate_all config linregress clock self inputs n0)))
     = calc_rating_map self
  /\ min_data_points (fst (fst (calculate_all config linregress clock self inputs n0)))
     = min_data_points self
  /\ RTSICalculator_str (fst (fst (calculate_all config linregress clock self inputs n0)))
     = "RTSICalculator(calculations="
         ++ str_of_Z (calculation_count self + Z.of_nat (List.length inputs))
         ++ ", min_points=" ++ str_of_Z (min_data_points self) ++ ")"
  /\ calculation_count
       (RTSICalculator_reset_counter
          (fst (fst (calculate_all config linregress clock self inputs n0)))) = 0
  /\ snd (fst (calculate_all config linregress clock self inputs n0))
     = snd (fst (calculate_all config linregress clock other inputs n0))
  /\ List.length (snd (fst (calculate_all config linregress clock self inputs n0)))
     = List.length inputs.
Proof.
  assert (Fields :
            forall inputs self n,
              calculation_count
                (fst (fst (calculate_all config linregress clock self inputs n)))
              = calculation_count self + Z.of_nat (List.length inputs)
              /\ calc_rating_map
                   (fst (fst (calculate_all config linregress clock self inputs n)))
                 = calc_rating_map self
              /\ min_data_points
                   (fst (fst (calculate_all config linregress clock self inputs n)))
                 = min_data_points self
              /\ List.length (snd (fst (calculate_all config linregress clock self
                                          inputs n)))
                 = List.length inputs).
  { induction inputs0 as [| x rest IH]; intros s n.
    - cbn. repeat split; lia.
    - rewrite calculate_all_step, calculate_step_fields. cbn [fst snd].
      match goal with
      | |- context [calculate_all _ _ _ ?s' rest ?n'] =>
          destruct (IH s' n') as (C & M & P & L)
      end.
      rewrite C, M, P. cbn [calculation_count calc_rating_map min_data_points
                              List.length].
      rewrite L. repeat split; lia. }
  assert (Same :
            forall inputs a b n,
              snd (fst (calculate_all config linregress clock a inputs n))
              = snd (fst (calculate_all config linregress clock b inputs n))
              /\ snd (calculate_all config linregress clock a inputs n)
                 = snd (calculate_all config linregress clock b inputs n)).
  { induction inputs0 as [| x rest IH]; intros a b n; [split; reflexivity |].
    rewrite !calculate_all_step, !calculate_step_fields. cbn [fst snd].
    match goal with
    | |- context [calculate_all _ _ _ ?a' rest ?n'] =>
        match goal with
        | |- context [calculate_all _ _ _ ?b' rest n'] =>
            tryif constr_eq a' b' then fail else
              destruct (IH a' b' n') as [R N]
        end
    end.
    rewrite R, N. split; reflexivity. }
  destruct (Fields inputs self n0) as (C & M & P & L).
  split; [exact C |]. split; [exact M |]. split; [exact P |].
  split; [unfold RTSICalculator_str; rewrite C, P; reflexivity |].
  split; [reflexivity |]. split; [apply Same | exact L].
Qed.

(** ** The scorer when the regression answers NaN *)

Lemma same_record_refl (r : dict pyval) : same_record r r.
Proof.
  induction r as [| kv r IH]; constructor; [| exact IH].
  split; [reflexivity | left; reflexivity].
Qed.

Lemma finite_significance_agrees (reg : LinregressResult) :
  to_float (significance_nan (finite_outputs reg)) = Finite (significance reg).
Proof.
  unfold significance_nan, significance, py_max.
  cbn [finite_outputs float_p_value float_lt float_binop].
  destruct (Qltb (p_value reg) (5 # 100)); [| reflexivity].
  unfold Qltb, Qminus. destruct (Qlt_le_dec 0 (1 + - p_value reg)); reflexivity.
Qed.

Lemma finite_confidence_agrees (reg : LinregressResult) :
  same_value (number_value (number_round (significance_nan (finite_outputs reg)) 3))
             (PFloat (py_round (significance reg) 3)).
Proof.
  unfold significance_nan, significance, py_max.
  cbn [finite_outputs float_p_value float_lt float_binop].
  destruct (Qltb (p_value reg) (5 # 100)); [| right; split; reflexivity].
  unfold Qltb, Qminus. destruct (Qlt_le_dec 0 (1 + - p_value reg)).
  - left. reflexivity.
  - right. split; reflexivity.
Qed.

Lemma finite_scores_agree (reg : LinregressResult) (n : nat) :
  consistency_nan (finite_outputs reg) = Finite (consistency reg)
  /\ amplitude_nan (finite_outputs reg) n = Finite (amplitude reg n)
  /\ rtsi_nan (finite_outputs reg) n = Finite (rtsi reg n).
Proof.
  assert (A : amplitude_nan (finite_outputs reg) n = Finite (amplitude reg n)).
  { unfold amplitude_nan, amplitude, float_min, py_min.
    cbn [finite_outputs float_slope float_abs float_binop float_lt].
    unfold Qltb.
    destruct (Qlt_le_dec 1 (Qabs (slope reg) * inject_Z (Z.of_nat n) / rating_scale_max));
      reflexivity. }
  split; [reflexivity |]. split; [exact A |].
  unfold rtsi_nan. rewrite finite_significance_agrees, A. reflexivity.
Qed.

Lemma finite_trend_agrees (slope : Q) (significance_nan : pynumber) (significance : Q) :
  to_float significance_nan = Finite significance ->
  _determine_trend_direction_nan (Finite slope) significance_nan
  = _determine_trend_direction slope significance.
Proof. intros H. unfold _determine_trend_direction_nan. rewrite H. reflexivity. Qed.

(** On regression outputs that are numbers, the scorer with NaN reads the
    clock as the scorer does and returns the scorer's record, but for the
    integer [0] it keeps as the confidence of a regression that is not
    significant. *)
Lemma nan_scorer_agrees_on_numbers
  (config : option rating_map)
  (linregress : list Z -> list Z -> outcome LinregressResult)
  (clock : nat -> Z) (stock_ratings : option (list cell)) (n0 : nat) :
  same_record
    (fst (calculate_rating_trend_strength_index_nan config (finite_linregress linregress)
            clock stock_ratings n0))
    (fst (calculate_rating_trend_strength_index config linregress clock stock_ratings n0))
  /\ snd (calculate_rating_trend_strength_index_nan config (finite_linregress linregress)
            clock stock_ratings n0)
     = snd (calculate_rating_trend_strength_index config linregress clock stock_ratings n0).
Proof.
  unfold calculate_rating_trend_strength_index_nan,
    calculate_rating_trend_strength_index, bind, ret.
  destruct (datetime_now clock n0) as [t0 n1].
  destruct stock_ratings as [ratings |];
    [| split; [apply same_record_refl | reflexivity]].
  destruct (List.length ratings =? 0)%nat;
    [split; [apply same_record_refl | reflexivity] |].
  destruct (List.length (encode (RATING_SCORE_MAP config) ratings) <? 5)%nat;
    [split; [apply same_record_refl | reflexivity] |].
  unfold finite_linregress.
  destruct (linregress (arange (List.length (encode (RATING_SCORE_MAP config) ratings)))
              (encode (RATING_SCORE_MAP config) ratings)) as [reg | e];
    [| split; [apply same_record_refl | reflexivity]].
  destruct (finite_scores_agree reg
              (List.length (encode (RATING_SCORE_MAP config) ratings)))
    as (C & _ & R).
  rewrite C, R. cbn [finite_outputs float_slope float_round float_value].
  rewrite (finite_trend_agrees (slope reg) _ _ (finite_significance_agrees reg)).
  destruct (datetime_now clock n1) as [t1 n2]. cbn [fst snd].
  split; [| reflexivity].
  apply Forall2_cons; [split; [reflexivity | left; reflexivity] |].
  apply Forall2_cons; [split; [reflexivity | left; reflexivity] |].
  apply Forall2_cons; [split; [reflexivity | apply finite_confidence_agrees] |].
  apply same_record_refl.
Qed.

(** A correlation coefficient that is NaN makes the reported r_squared and
    rtsi NaN, whatever the other outputs are. *)
Lemma nan_correlation_gives_nan_index (reg : LinregressFloats) (n : nat) :
  float_r_value reg = NotANumber ->
  float_value (float_round (consistency_nan reg) 3) = PNaN
  /\ float_value (float_round (rtsi_nan reg n) 2) = PNaN.
Proof.
  intros H. unfold rtsi_nan, consistency_nan. rewrite H. split; reflexivity.
Qed.

(** A p-value that is NaN makes the significance the integer [0], since
    [p_value < 0.05] is then false. *)
Lemma nan_p_value_gives_no_significance (reg : LinregressFloats) :
  float_p_value reg = NotANumber ->
  significance_nan reg = IntNumber 0.
Proof. intros H. unfold significance_nan. rewrite H. reflexivity. Qed.

(** C7 (the code departs from the claim): for five equal ratings the
    regression answers slope 0 and NaN for the correlation coefficient and
    the p-value; nothing is raised, and the scorer returns a scored record
    whose [rtsi] and [r_squared] are NaN, which lie in no interval, beside
    the trend [neutral] and the integer [0] as confidence. *)
Theorem constant_sequence_scores_nan :
  valid_points DEFAULT_RATING_SCORE_MAP (Some constant_ratings) = 5%nat
  /\ fst (calculate_rating_trend_strength_index_nan None linregress_constant test_clock
            (Some constant_ratings) 0%nat)
     = [("rtsi", PNaN);
        ("trend", PStr "neutral");
        ("confidence", PInt 0);
        ("slope", PFloat (0 # 10000));
        ("r_squared", PNaN);
        ("recent_score", PInt 4);
        ("score_change_5d", PNone);
        ("data_points", PInt 5);
        ("calculation_time", PStr "0.001s")].
Proof. split; vm_compute; reflexivity. Qed.
